(** * vulkan-tut: the bootstrap sequence of [src/main.cpp]

    A shallow embedding of [HelloTriangleApplication]: the member
    functions are written in a small monad that threads the application
    object, records every call made to GLFW, Vulkan and the standard
    streams, and carries the C++ exception when one is thrown. The windowing
    system and the graphics driver are a [Host] record, which answers the
    calls. *)

From Stdlib Require Import ZArith List String Ascii Bool Lia QArith DecimalString.
Import ListNotations.
Open Scope string_scope.
Open Scope list_scope.
Open Scope Z_scope.

Set Implicit Arguments.

(* ================================================================= *)
(** ** Machine integers and C strings *)

Module Cxx.

Definition UINT32_MAX : Z := 4294967295.

(** Conversion to [uint32_t]: reduction modulo 2^32. *)
Definition to_uint32 (z : Z) : Z := z mod 2 ^ 32.

(** A value of type [int] (32 bits, two's complement). *)
Definition to_int (z : Z) : Z := (z + 2 ^ 31) mod 2 ^ 32 - 2 ^ 31.

(** [i++] on an [int]. The wrap-around is written out; it is only taken
    after 2^31 - 1 increments. *)
Definition int_incr (i : Z) : Z := to_int (i + 1).

(** [strcmp]: zero for equal strings, otherwise the sign of the
    lexicographic comparison of the character codes. A C string is
    modelled by the characters before its terminator. *)
Definition strcmp (a b : string) : Z :=
  match String.compare a b with
  | Eq => 0
  | Lt => -1
  | Gt => 1
  end.

(** [std::to_string] on an integer: decimal digits, a leading minus sign
    for a negative value. *)
Definition to_string (z : Z) : string := NilZero.string_of_int (Z.to_int z).

Definition endl : string := String "010" EmptyString.

End Cxx.

(* ================================================================= *)
(** ** Constants of the Vulkan and GLFW headers used by the program *)

Definition Handle : Type := Z.
Definition VK_NULL_HANDLE : Handle := 0.

Definition GLFWwindow_ptr : Type := Handle.
Definition VkInstance : Type := Handle.
Definition VkPhysicalDevice : Type := Handle.
Definition VkDevice : Type := Handle.
Definition VkQueue : Type := Handle.

Definition VkResult : Type := Z.
Definition VK_SUCCESS : VkResult := 0.
Definition VK_ERROR_LAYER_NOT_PRESENT : VkResult := -6.
Definition VK_ERROR_EXTENSION_NOT_PRESENT : VkResult := -7.

Definition VK_QUEUE_GRAPHICS_BIT : Z := 1.
Definition VK_QUEUE_COMPUTE_BIT : Z := 2.
Definition VK_QUEUE_TRANSFER_BIT : Z := 4.

Definition VK_INSTANCE_CREATE_ENUMERATE_PORTABILITY_BIT_KHR : Z := 1.

Definition VK_STRUCTURE_TYPE_APPLICATION_INFO : Z := 0.
Definition VK_STRUCTURE_TYPE_INSTANCE_CREATE_INFO : Z := 1.
Definition VK_STRUCTURE_TYPE_DEVICE_QUEUE_CREATE_INFO : Z := 2.
Definition VK_STRUCTURE_TYPE_DEVICE_CREATE_INFO : Z := 3.

Definition VK_MAKE_VERSION (major minor patch : Z) : Z :=
  Z.lor (Z.lor (Z.shiftl major 22) (Z.shiftl minor 12)) patch.
Definition VK_API_VERSION_1_2 : Z := VK_MAKE_VERSION 1 2 0.

Definition VK_KHR_SWAPCHAIN_EXTENSION_NAME : string := "VK_KHR_swapchain".

Definition GLFW_CLIENT_API : Z := 139265.   (* 0x00022001 *)
Definition GLFW_NO_API : Z := 0.
Definition GLFW_RESIZABLE : Z := 131075.    (* 0x00020003 *)
Definition GLFW_FALSE : Z := 0.

Definition EXIT_SUCCESS : Z := 0.
Definition EXIT_FAILURE : Z := 1.

(* ================================================================= *)
(** ** Globals of main.cpp *)

Definition WIDTH : Z := 800.
Definition HEIGHT : Z := 600.

Definition validationLayers : list string := ["VK_LAYER_KHRONOS_validation"].

(* ================================================================= *)
(** ** Structures *)

(** [VkLayerProperties] and [VkQueueFamilyProperties]: the members the
    program reads. *)
Record VkLayerProperties := { layerName : string }.

Record VkQueueFamilyProperties := { queueFlags : Z }.

Record QueueFamilyIndices := { graphicsFamily : option Z }.

Definition isComplete (indices : QueueFamilyIndices) : bool :=
  match graphicsFamily indices with
  | Some _ => true
  | None => false
  end.

Module VkApplicationInfo.
Record t := {
  sType : Z;
  pApplicationName : string;
  applicationVersion : Z;
  pEngineName : string;
  engineVersion : Z;
  apiVersion : Z
}.
End VkApplicationInfo.

(** A pointer to an array is modelled by the array it points to, the null
    pointer by the empty list; the count members are kept as the program
    sets them. *)
Module VkInstanceCreateInfo.
Record t := {
  sType : Z;
  flags : Z;
  pApplicationInfo : option VkApplicationInfo.t;
  enabledLayerCount : Z;
  ppEnabledLayerNames : list string;
  enabledExtensionCount : Z;
  ppEnabledExtensionNames : list string
}.

(** [VkInstanceCreateInfo createInfo{}] *)
Definition zero : t :=
  {| sType := 0; flags := 0; pApplicationInfo := None;
     enabledLayerCount := 0; ppEnabledLayerNames := [];
     enabledExtensionCount := 0; ppEnabledExtensionNames := [] |}.

Definition set_sType (v : Z) (c : t) : t :=
  {| sType := v; flags := flags c; pApplicationInfo := pApplicationInfo c;
     enabledLayerCount := enabledLayerCount c;
     ppEnabledLayerNames := ppEnabledLayerNames c;
     enabledExtensionCount := enabledExtensionCount c;
     ppEnabledExtensionNames := ppEnabledExtensionNames c |}.
Definition set_flags (v : Z) (c : t) : t :=
  {| sType := sType c; flags := v; pApplicationInfo := pApplicationInfo c;
     enabledLayerCount := enabledLayerCount c;
     ppEnabledLayerNames := ppEnabledLayerNames c;
     enabledExtensionCount := enabledExtensionCount c;
     ppEnabledExtensionNames := ppEnabledExtensionNames c |}.
Definition set_pApplicationInfo (v : VkApplicationInfo.t) (c : t) : t :=
  {| sType := sType c; flags := flags c; pApplicationInfo := Some v;
     enabledLayerCount := enabledLayerCount c;
     ppEnabledLayerNames := ppEnabledLayerNames c;
     enabledExtensionCount := enabledExtensionCount c;
     ppEnabledExtensionNames := ppEnabledExtensionNames c |}.
Definition set_enabledLayerCount (v : Z) (c : t) : t :=
  {| sType := sType c; flags := flags c; pApplicationInfo := pApplicationInfo c;
     enabledLayerCount := v;
     ppEnabledLayerNames := ppEnabledLayerNames c;
     enabledExtensionCount := enabledExtensionCount c;
     ppEnabledExtensionNames := ppEnabledExtensionNames c |}.
Definition set_ppEnabledLayerNames (v : list string) (c : t) : t :=
  {| sType := sType c; flags := flags c; pApplicationInfo := pApplicationInfo c;
     enabledLayerCount := enabledLayerCount c;
     ppEnabledLayerNames := v;
     enabledExtensionCount := enabledExtensionCount c;
     ppEnabledExtensionNames := ppEnabledExtensionNames c |}.
Definition set_enabledExtensionCount (v : Z) (c : t) : t :=
  {| sType := sType c; flags := flags c; pApplicationInfo := pApplicationInfo c;
     enabledLayerCount := enabledLayerCount c;
     ppEnabledLayerNames := ppEnabledLayerNames c;
     enabledExtensionCount := v;
     ppEnabledExtensionNames := ppEnabledExtensionNames c |}.
Definition set_ppEnabledExtensionNames (v : list string) (c : t) : t :=
  {| sType := sType c; flags := flags c; pApplicationInfo := pApplicationInfo c;
     enabledLayerCount := enabledLayerCount c;
     ppEnabledLayerNames := ppEnabledLayerNames c;
     enabledExtensionCount := enabledExtensionCount c;
     ppEnabledExtensionNames := v |}.
End VkInstanceCreateInfo.

Module VkDeviceQueueCreateInfo.
Record t := {
  sType : Z;
  queueFamilyIndex : Z;
  queueCount : Z;
  pQueuePriorities : list Q
}.
End VkDeviceQueueCreateInfo.

(** [VkPhysicalDeviceFeatures]: 55 [VkBool32] members, in declaration order. *)
Record VkPhysicalDeviceFeatures := { featureFlags : list Z }.

Definition noDeviceFeatures : VkPhysicalDeviceFeatures :=
  {| featureFlags := repeat 0 55 |}.

Module VkDeviceCreateInfo.
Record t := {
  sType : Z;
  pQueueCreateInfos : list VkDeviceQueueCreateInfo.t;
  queueCreateInfoCount : Z;
  pEnabledFeatures : option VkPhysicalDeviceFeatures;
  enabledExtensionCount : Z;
  ppEnabledExtensionNames : list string;
  enabledLayerCount : Z;
  ppEnabledLayerNames : list string
}.
End VkDeviceCreateInfo.

(** The application object: the data members of [HelloTriangleApplication]. *)
Record HelloTriangleApplication := {
  window : GLFWwindow_ptr;
  instance : VkInstance;
  device : VkDevice;
  physicalDevice : VkPhysicalDevice;
  graphicsQueue : VkQueue
}.

(** [HelloTriangleApplication app;] with the default member initialisers. *)
Definition newApplication : HelloTriangleApplication :=
  {| window := 0; instance := 0; device := 0;
     physicalDevice := VK_NULL_HANDLE; graphicsQueue := 0 |}.

Definition set_window (v : GLFWwindow_ptr) (a : HelloTriangleApplication) :=
  {| window := v; instance := instance a; device := device a;
     physicalDevice := physicalDevice a; graphicsQueue := graphicsQueue a |}.
Definition set_instance (v : VkInstance) (a : HelloTriangleApplication) :=
  {| window := window a; instance := v; device := device a;
     physicalDevice := physicalDevice a; graphicsQueue := graphicsQueue a |}.
Definition set_device (v : VkDevice) (a : HelloTriangleApplication) :=
  {| window := window a; instance := instance a; device := v;
     physicalDevice := physicalDevice a; graphicsQueue := graphicsQueue a |}.
Definition set_physicalDevice (v : VkPhysicalDevice) (a : HelloTriangleApplication) :=
  {| window := window a; instance := instance a; device := device a;
     physicalDevice := v; graphicsQueue := graphicsQueue a |}.
Definition set_graphicsQueue (v : VkQueue) (a : HelloTriangleApplication) :=
  {| window := window a; instance := instance a; device := device a;
     physicalDevice := physicalDevice a; graphicsQueue := v |}.

(* ================================================================= *)
(** ** Calls, exceptions and the host *)

(** One constructor per library entry point the program calls, with the
    arguments that matter to the callee. The enumeration functions that are
    called twice (count, then data) appear twice in a trace. *)
Inductive Call :=
| glfwInit
| glfwWindowHint (hint value : Z)
| glfwCreateWindow (width height : Z) (title : string)
| glfwGetRequiredInstanceExtensions
| glfwWindowShouldClose (w : GLFWwindow_ptr)
| glfwPollEvents
| glfwDestroyWindow (w : GLFWwindow_ptr)
| glfwTerminate
| vkEnumerateInstanceLayerProperties
| vkCreateInstance (createInfo : VkInstanceCreateInfo.t)
| vkEnumeratePhysicalDevices (i : VkInstance)
| vkGetPhysicalDeviceQueueFamilyProperties (d : VkPhysicalDevice)
| vkCreateDevice (d : VkPhysicalDevice) (createInfo : VkDeviceCreateInfo.t)
| vkGetDeviceQueue (d : VkDevice) (queueFamilyIndex queueIndex : Z)
| vkDestroyDevice (d : VkDevice)
| vkDestroyInstance (i : VkInstance)
| std_cout (text : string)
| std_cerr (text : string).

Inductive exception :=
| runtime_error (what : string)
| bad_optional_access.

(** The error kinds of the program, by the message each one carries. *)
Definition LayerUnavailable : exception :=
  runtime_error "validation layers requested, but not available!".
Definition InstanceCreationFailed (code : VkResult) : exception :=
  runtime_error ("failed to create instance! Error code: " ++ Cxx.to_string code)%string.
Definition NoDevicesFound : exception :=
  runtime_error "failed to find GPUs with Vulkan support!".
Definition NoSuitableDevice : exception :=
  runtime_error "failed to find a suitable GPU!".
Definition DeviceCreationFailed : exception :=
  runtime_error "failed to create logical device!".

Definition what (e : exception) : string :=
  match e with
  | runtime_error w => w
  | bad_optional_access => "bad optional access"
  end.

(** What the window system and the driver answer. A creation call returns
    its result code and the value it leaves in the output handle it was
    given: the new handle on success, whatever the driver left there
    otherwise. The close request is a function of the number of polls made
    so far. *)
Record Host := {
  host_createWindow : GLFWwindow_ptr;
  host_requiredInstanceExtensions : list string;
  host_windowShouldClose : nat -> bool;
  host_instanceLayers : list VkLayerProperties;
  host_createInstance : VkInstanceCreateInfo.t -> VkResult * VkInstance;
  host_physicalDevices : VkInstance -> list VkPhysicalDevice;
  host_queueFamilies : VkPhysicalDevice -> list VkQueueFamilyProperties;
  host_createDevice : VkPhysicalDevice -> VkDeviceCreateInfo.t -> VkResult * VkDevice;
  host_deviceQueue : VkDevice -> Z -> Z -> VkQueue
}.

(* ================================================================= *)
(** ** The monad of member functions *)

Definition M (A : Type) : Type :=
  HelloTriangleApplication ->
  list Call * HelloTriangleApplication * (exception + A).

Definition ret {A} (a : A) : M A := fun this => ([], this, inr a).

Definition bind {A B} (m : M A) (k : A -> M B) : M B :=
  fun this =>
    let '(t1, this1, r) := m this in
    match r with
    | inl e => (t1, this1, inl e)
    | inr a => let '(t2, this2, r2) := k a this1 in (t1 ++ t2, this2, r2)
    end.

Definition throw {A} (e : exception) : M A := fun this => ([], this, inl e).
Definition call (c : Call) : M unit := fun this => ([c], this, inr tt).
Definition member {A} (f : HelloTriangleApplication -> A) : M A :=
  fun this => ([], this, inr (f this)).
Definition assign (f : HelloTriangleApplication -> HelloTriangleApplication) : M unit :=
  fun this => ([], f this, inr tt).

Notation "x <- m ;; k" := (bind m (fun x => k))
  (at level 61, m at next level, right associativity).
Notation "m ;; k" := (bind m (fun _ => k))
  (at level 61, right associativity).

Definition calls {A} (o : list Call * HelloTriangleApplication * (exception + A)) :=
  fst (fst o).
Definition object {A} (o : list Call * HelloTriangleApplication * (exception + A)) :=
  snd (fst o).
Definition outcome {A} (o : list Call * HelloTriangleApplication * (exception + A)) :=
  snd o.

(* ================================================================= *)
(** ** The loops of the program, as functions of the enumerated data *)

(** The inner loop of [checkValidationLayerSupport]: [layerFound] after
    scanning [availableLayers] for [name], leaving at the first hit. *)
Fixpoint layerFound (name : string) (availableLayers : list VkLayerProperties) : bool :=
  match availableLayers with
  | [] => false
  | layerProperties :: rest =>
      if Cxx.strcmp name (layerName layerProperties) =? 0 then true
      else layerFound name rest
  end.

(** The outer loop: [return false] at the first layer that is not found,
    [return true] after the last one. *)
Fixpoint allLayersFound (layers : list string) (availableLayers : list VkLayerProperties) : bool :=
  match layers with
  | [] => true
  | name :: rest =>
      if negb (layerFound name availableLayers) then false
      else allLayersFound rest availableLayers
  end.

(** [queueFamily.queueFlags & VK_QUEUE_GRAPHICS_BIT], as a condition. *)
Definition hasGraphicsBit (queueFamily : VkQueueFamilyProperties) : bool :=
  negb (Z.land (queueFlags queueFamily) VK_QUEUE_GRAPHICS_BIT =? 0).

(** The loop of [findQueueFamilies], entered with the [int] counter [i] and
    the indices found so far. *)
Fixpoint scanQueueFamilies (queueFamilies : list VkQueueFamilyProperties)
    (i : Z) (indices : QueueFamilyIndices) : QueueFamilyIndices :=
  match queueFamilies with
  | [] => indices
  | queueFamily :: rest =>
      let indices :=
        if hasGraphicsBit queueFamily
        then {| graphicsFamily := Some (Cxx.to_uint32 i) |}
        else indices in
      if isComplete indices then indices
      else scanQueueFamilies rest (Cxx.int_incr i) indices
  end.

(** [std::optional::value] *)
Definition value (o : option Z) : M Z :=
  match o with
  | Some v => ret v
  | None => throw bad_optional_access
  end.

(* ================================================================= *)
(** ** The member functions *)

Section Program.

(** [enableValidationLayers] is fixed by the build ([NDEBUG]). *)
Variable enableValidationLayers : bool.
Variable host : Host.

Definition initWindow : M unit :=
  call glfwInit ;;
  call (glfwWindowHint GLFW_CLIENT_API GLFW_NO_API) ;;
  call (glfwWindowHint GLFW_RESIZABLE GLFW_FALSE) ;;
  call (glfwCreateWindow WIDTH HEIGHT "Vulkan") ;;
  assign (set_window (host_createWindow host)).

Definition checkValidationLayerSupport : M bool :=
  call vkEnumerateInstanceLayerProperties ;;
  call vkEnumerateInstanceLayerProperties ;;
  let availableLayers := host_instanceLayers host in
  ret (allLayersFound validationLayers availableLayers).

(** [vkCreateInstance(&createInfo, nullptr, &instance)]: the driver is
    handed the address of [instance], and the member holds what the driver
    left there, whatever the result. *)
Definition do_vkCreateInstance (createInfo : VkInstanceCreateInfo.t) : M VkResult :=
  fun this =>
    let '(result, handle) := host_createInstance host createInfo in
    ([vkCreateInstance createInfo], set_instance handle this, inr result).

Definition createInstance : M unit :=
  unavailable <-
    (if enableValidationLayers
     then (supported <- checkValidationLayerSupport ;; ret (negb supported))
     else ret false) ;;
  if unavailable : bool then throw LayerUnavailable
  else
    let appInfo :=
      {| VkApplicationInfo.sType := VK_STRUCTURE_TYPE_APPLICATION_INFO;
         VkApplicationInfo.pApplicationName := "Hello Triangle";
         VkApplicationInfo.applicationVersion := VK_MAKE_VERSION 1 0 0;
         VkApplicationInfo.pEngineName := "No Engine";
         VkApplicationInfo.engineVersion := VK_MAKE_VERSION 1 0 0;
         VkApplicationInfo.apiVersion := VK_API_VERSION_1_2 |} in
    let createInfo := VkInstanceCreateInfo.zero in
    let createInfo :=
      VkInstanceCreateInfo.set_sType VK_STRUCTURE_TYPE_INSTANCE_CREATE_INFO createInfo in
    let createInfo :=
      VkInstanceCreateInfo.set_flags
        VK_INSTANCE_CREATE_ENUMERATE_PORTABILITY_BIT_KHR createInfo in
    let createInfo := VkInstanceCreateInfo.set_pApplicationInfo appInfo createInfo in
    let createInfo :=
      if enableValidationLayers
      then
        VkInstanceCreateInfo.set_ppEnabledLayerNames validationLayers
          (VkInstanceCreateInfo.set_enabledLayerCount
             (Cxx.to_uint32 (Z.of_nat (List.length validationLayers))) createInfo)
      else VkInstanceCreateInfo.set_enabledLayerCount 0 createInfo in
    call glfwGetRequiredInstanceExtensions ;;
    let glfwExtensions := host_requiredInstanceExtensions host in
    let enabledExtensions := glfwExtensions ++ ["VK_KHR_portability_enumeration"] in
    let createInfo :=
      VkInstanceCreateInfo.set_enabledExtensionCount
        (Cxx.to_uint32 (Z.of_nat (List.length enabledExtensions))) createInfo in
    let createInfo :=
      VkInstanceCreateInfo.set_ppEnabledExtensionNames enabledExtensions createInfo in
    (* lines 255-256: set again, outside the test on the build flag *)
    let createInfo :=
      VkInstanceCreateInfo.set_enabledLayerCount
        (Cxx.to_uint32 (Z.of_nat (List.length validationLayers))) createInfo in
    let createInfo :=
      VkInstanceCreateInfo.set_ppEnabledLayerNames validationLayers createInfo in
    result <- do_vkCreateInstance createInfo ;;
    if negb (result =? VK_SUCCESS) then throw (InstanceCreationFailed result)
    else ret tt.

Definition findQueueFamilies (device_candidate : VkPhysicalDevice) : M QueueFamilyIndices :=
  call (vkGetPhysicalDeviceQueueFamilyProperties device_candidate) ;;
  call (vkGetPhysicalDeviceQueueFamilyProperties device_candidate) ;;
  let queueFamilies := host_queueFamilies host device_candidate in
  ret (scanQueueFamilies queueFamilies 0 {| graphicsFamily := None |}).

Definition isDeviceSuitable (device_candidate : VkPhysicalDevice) : M bool :=
  indices <- findQueueFamilies device_candidate ;;
  ret (isComplete indices).

(** The range-for of [pickPhysicalDevice]; the [break] is the branch that
    does not go on to the rest of the list. *)
Fixpoint pickLoop (devices : list VkPhysicalDevice) : M unit :=
  match devices with
  | [] => ret tt
  | device_candidate :: rest =>
      suitable <- isDeviceSuitable device_candidate ;;
      if suitable : bool then assign (set_physicalDevice device_candidate)
      else pickLoop rest
  end.

Definition pickPhysicalDevice : M unit :=
  instance_ <- member instance ;;
  call (vkEnumeratePhysicalDevices instance_) ;;
  let deviceCount := Z.of_nat (List.length (host_physicalDevices host instance_)) in
  if deviceCount =? 0 then throw NoDevicesFound
  else
    call (vkEnumeratePhysicalDevices instance_) ;;
    let devices := host_physicalDevices host instance_ in
    pickLoop devices ;;
    chosen <- member physicalDevice ;;
    if chosen =? VK_NULL_HANDLE then throw NoSuitableDevice
    else ret tt.

(** [vkCreateDevice(physicalDevice, &createInfo, nullptr, &device)]: the
    driver is handed the address of [device], and the member holds what the
    driver left there, whatever the result. *)
Definition do_vkCreateDevice (pd : VkPhysicalDevice)
    (createInfo : VkDeviceCreateInfo.t) : M VkResult :=
  fun this =>
    let '(result, handle) := host_createDevice host pd createInfo in
    ([vkCreateDevice pd createInfo], set_device handle this, inr result).

(** [vkGetDeviceQueue(device, family, index, &graphicsQueue)] *)
Definition do_vkGetDeviceQueue (family index : Z) : M unit :=
  device_ <- member device ;;
  call (vkGetDeviceQueue device_ family index) ;;
  assign (set_graphicsQueue (host_deviceQueue host device_ family index)).

Definition createLogicalDevice : M unit :=
  physicalDevice_ <- member physicalDevice ;;
  indices <- findQueueFamilies physicalDevice_ ;;
  family <- value (graphicsFamily indices) ;;
  let queuePriority : Q := 1%Q in
  let queueCreateInfo :=
    {| VkDeviceQueueCreateInfo.sType := VK_STRUCTURE_TYPE_DEVICE_QUEUE_CREATE_INFO;
       VkDeviceQueueCreateInfo.queueFamilyIndex := family;
       VkDeviceQueueCreateInfo.queueCount := 1;
       VkDeviceQueueCreateInfo.pQueuePriorities := [queuePriority] |} in
  let deviceFeatures := noDeviceFeatures in
  let deviceExtensions :=
    [VK_KHR_SWAPCHAIN_EXTENSION_NAME; "VK_KHR_portability_subset"] in
  let createInfo :=
    {| VkDeviceCreateInfo.sType := VK_STRUCTURE_TYPE_DEVICE_CREATE_INFO;
       VkDeviceCreateInfo.pQueueCreateInfos := [queueCreateInfo];
       VkDeviceCreateInfo.queueCreateInfoCount := 1;
       VkDeviceCreateInfo.pEnabledFeatures := Some deviceFeatures;
       VkDeviceCreateInfo.enabledExtensionCount :=
         Cxx.to_uint32 (Z.of_nat (List.length deviceExtensions));
       VkDeviceCreateInfo.ppEnabledExtensionNames := deviceExtensions;
       VkDeviceCreateInfo.enabledLayerCount :=
         if enableValidationLayers
         then Cxx.to_uint32 (Z.of_nat (List.length validationLayers))
         else 0;
       VkDeviceCreateInfo.ppEnabledLayerNames :=
         if enableValidationLayers then validationLayers else [] |} in
  result <- do_vkCreateDevice physicalDevice_ createInfo ;;
  if negb (result =? VK_SUCCESS) then throw DeviceCreationFailed
  else
    family' <- value (graphicsFamily indices) ;;
    do_vkGetDeviceQueue family' 0.

Definition initVulkan : M unit :=
  createInstance ;;
  pickPhysicalDevice ;;
  createLogicalDevice.

Definition cleanup : M unit :=
  device_ <- member device ;;
  call (vkDestroyDevice device_) ;;
  instance_ <- member instance ;;
  call (vkDestroyInstance instance_) ;;
  window_ <- member window ;;
  call (glfwDestroyWindow window_) ;;
  call glfwTerminate.

(** [mainLoop]: the loop ends when the window system reports a close
    request. [polls] counts the events polled so far; [fuel] bounds the
    number of tests of the loop condition, and [None] is a loop that has
    not ended within that bound. *)
Fixpoint mainLoop (fuel polls : nat) (this : HelloTriangleApplication)
    : option (list Call) :=
  match fuel with
  | O => None
  | S fuel' =>
      if host_windowShouldClose host polls
      then Some [glfwWindowShouldClose (window this)]
      else
        match mainLoop fuel' (S polls) this with
        | None => None
        | Some t => Some (glfwWindowShouldClose (window this) :: glfwPollEvents :: t)
        end
  end.

(** [run]: an exception thrown by [initWindow] or [initVulkan] leaves the
    function at once. *)
Definition run (fuel : nat) (this : HelloTriangleApplication)
    : option (list Call * HelloTriangleApplication * (exception + unit)) :=
  let '(t1, this1, r1) := (initWindow ;; initVulkan) this in
  match r1 with
  | inl e => Some (t1, this1, inl e)
  | inr _ =>
      match mainLoop fuel 0 this1 with
      | None => None
      | Some t2 =>
          let '(t3, this3, r3) := cleanup this1 in
          Some (t1 ++ t2 ++ t3, this3, r3)
      end
  end.

(** [main]: the calls made and the exit status. *)
Definition main (fuel : nat) : option (list Call * Z) :=
  let banner :=
    std_cout ("Validation layers enabled: "
              ++ (if enableValidationLayers then "1" else "0") ++ Cxx.endl)%string in
  match run fuel newApplication with
  | None => None
  | Some (t, _, inr _) => Some (banner :: t, EXIT_SUCCESS)
  | Some (t, _, inl e) =>
      Some (banner :: t ++ [std_cerr (what e ++ Cxx.endl)%string], EXIT_FAILURE)
  end.

End Program.

(* ================================================================= *)
(** ** Concrete hosts *)

Module Hosts.

Definition graphicsAndCompute : VkQueueFamilyProperties :=
  {| queueFlags := Z.lor VK_QUEUE_GRAPHICS_BIT VK_QUEUE_COMPUTE_BIT |}.
Definition computeOnly : VkQueueFamilyProperties :=
  {| queueFlags := VK_QUEUE_COMPUTE_BIT |}.
Definition transferOnly : VkQueueFamilyProperties :=
  {| queueFlags := VK_QUEUE_TRANSFER_BIT |}.

(** A driver that refuses an instance whose layer list names a layer it
    does not have. *)
Definition strictCreateInstance (layers : list VkLayerProperties)
    (handle : VkInstance) (createInfo : VkInstanceCreateInfo.t)
    : VkResult * VkInstance :=
  if allLayersFound
       (firstn (Z.to_nat (VkInstanceCreateInfo.enabledLayerCount createInfo))
               (VkInstanceCreateInfo.ppEnabledLayerNames createInfo))
       layers
  then (VK_SUCCESS, handle)
  else (VK_ERROR_LAYER_NOT_PRESENT, VK_NULL_HANDLE).

(** Three physical devices; only the third has a graphics queue family,
    at family index 1. The window is closed after two polls. *)
Definition workstation (layers : list VkLayerProperties) (deviceResult : VkResult) : Host :=
  {| host_createWindow := 4096;
     host_requiredInstanceExtensions := ["VK_KHR_surface"; "VK_EXT_metal_surface"];
     host_windowShouldClose := fun polls => (2 <=? polls)%nat;
     host_instanceLayers := layers;
     host_createInstance := strictCreateInstance layers 8192;
     host_physicalDevices := fun _ => [11; 12; 13];
     host_queueFamilies := fun d =>
       if d =? 11 then [computeOnly]
       else if d =? 12 then [transferOnly; computeOnly]
       else if d =? 13 then [transferOnly; graphicsAndCompute; graphicsAndCompute]
       else [];
     host_createDevice := fun _ _ =>
       if deviceResult =? VK_SUCCESS then (VK_SUCCESS, 12288)
       else (deviceResult, VK_NULL_HANDLE);
     host_deviceQueue := fun d family index => d + 16 * family + index + 1 |}.

Definition khronos : list VkLayerProperties :=
  [ {| layerName := "VK_LAYER_LUNARG_api_dump" |};
    {| layerName := "VK_LAYER_KHRONOS_validation" |} ].

Definition otherLayers : list VkLayerProperties :=
  [ {| layerName := "Y" |}; {| layerName := "vk_layer_khronos_validation" |} ].

(** The validation layer is installed and device creation succeeds. *)
Definition good : Host := workstation khronos VK_SUCCESS.

(** Device creation is refused. *)
Definition refusesDevice : Host := workstation khronos VK_ERROR_EXTENSION_NOT_PRESENT.

(** The validation layer is not installed. *)
Definition noValidation : Host := workstation otherLayers VK_SUCCESS.

(** No physical device at all, and a host with devices but none with a
    graphics queue family. *)
Definition headless (devices : list VkPhysicalDevice) : Host :=
  {| host_createWindow := 4096;
     host_requiredInstanceExtensions := [];
     host_windowShouldClose := fun _ => true;
     host_instanceLayers := khronos;
     host_createInstance := strictCreateInstance khronos 8192;
     host_physicalDevices := fun _ => devices;
     host_queueFamilies := fun _ => [computeOnly; transferOnly];
     host_createDevice := fun _ _ => (VK_SUCCESS, 12288);
     host_deviceQueue := fun d family index => d + 16 * family + index + 1 |}.

End Hosts.

(* ================================================================= *)
(** ** Vocabulary of the properties *)

(** The scan of [findQueueFamilies] as the specification words it: every
    family is visited in index order, the first index whose flags include
    the graphics bit is recorded, and the scan does not stop early. *)
Fixpoint fullScanFrom (queueFamilies : list VkQueueFamilyProperties)
    (index : nat) (recorded : option Z) : option Z :=
  match queueFamilies with
  | [] => recorded
  | queueFamily :: rest =>
      fullScanFrom rest (S index)
        (match recorded with
         | Some _ => recorded
         | None => if hasGraphicsBit queueFamily then Some (Z.of_nat index) else None
         end)
  end.

Definition fullScan (queueFamilies : list VkQueueFamilyProperties) : QueueFamilyIndices :=
  {| graphicsFamily := fullScanFrom queueFamilies 0 None |}.

(** A device is graphics capable when one of its queue families has the
    graphics bit. *)
Definition graphicsCapable (host : Host) (d : VkPhysicalDevice) : bool :=
  existsb hasGraphicsBit (host_queueFamilies host d).

(** The two queries [findQueueFamilies] makes for a candidate. *)
Definition familyQueries (d : VkPhysicalDevice) : list Call :=
  [vkGetPhysicalDeviceQueueFamilyProperties d;
   vkGetPhysicalDeviceQueueFamilyProperties d].

(** The release calls of a trace, in the order they were made. *)
Definition isRelease (c : Call) : bool :=
  match c with
  | vkDestroyDevice _ | vkDestroyInstance _ | glfwDestroyWindow _ => true
  | _ => false
  end.

Definition released (t : list Call) : list Call := filter isRelease t.

(** The release each successful creation call of a trace calls for, in
    creation order. *)
Definition owedBy (host : Host) (c : Call) : list Call :=
  match c with
  | glfwCreateWindow _ _ _ => [glfwDestroyWindow (host_createWindow host)]
  | vkCreateInstance createInfo =>
      let '(result, handle) := host_createInstance host createInfo in
      if result =? VK_SUCCESS then [vkDestroyInstance handle] else []
  | vkCreateDevice d createInfo =>
      let '(result, handle) := host_createDevice host d createInfo in
      if result =? VK_SUCCESS then [vkDestroyDevice handle] else []
  | _ => []
  end.

Definition owed (host : Host) (t : list Call) : list Call := flat_map (owedBy host) t.

(** Every resource created in the trace is released in it, in the reverse
    of the creation order. *)
Definition releasedInReverseOrder (host : Host) (t : list Call) : Prop :=
  released t = rev (owed host t).

(** The two calls [checkValidationLayerSupport] makes. *)
Definition layerQueries : list Call :=
  [vkEnumerateInstanceLayerProperties; vkEnumerateInstanceLayerProperties].

(** The calls of [initWindow]. *)
Definition windowCalls : list Call :=
  [glfwInit;
   glfwWindowHint GLFW_CLIENT_API GLFW_NO_API;
   glfwWindowHint GLFW_RESIZABLE GLFW_FALSE;
   glfwCreateWindow WIDTH HEIGHT "Vulkan"].

(** The calls of a main loop that polls [polled] times before the close
    request is seen. *)
Fixpoint loopCalls (w : GLFWwindow_ptr) (polled : nat) : list Call :=
  match polled with
  | O => [glfwWindowShouldClose w]
  | S n => glfwWindowShouldClose w :: glfwPollEvents :: loopCalls w n
  end.

(** The creation calls of a trace, in the order they were made. *)
Definition isCreation (c : Call) : bool :=
  match c with
  | glfwCreateWindow _ _ _ | vkCreateInstance _ | vkCreateDevice _ _ => true
  | _ => false
  end.

Definition creations (t : list Call) : list Call := filter isCreation t.

(** The calls of the main loop. *)
Definition isLoopCall (c : Call) : bool :=
  match c with
  | glfwWindowShouldClose _ | glfwPollEvents => true
  | _ => false
  end.

(** The part of [run] before the main loop. *)
Definition startUp (enableValidationLayers : bool) (host : Host) : M unit :=
  initWindow host ;; initVulkan enableValidationLayers host.

(* ================================================================= *)
(** ** Machine integers and strings *)

Unset Implicit Arguments.

Lemma to_uint32_to_int (z : Z) : Cxx.to_uint32 (Cxx.to_int z) = Cxx.to_uint32 z.
Proof.
  unfold Cxx.to_uint32, Cxx.to_int.
  rewrite Zminus_mod_idemp_l. f_equal. lia.
Qed.

Lemma to_uint32_plus_to_int (z n : Z) :
  Cxx.to_uint32 (Cxx.to_int z + n) = Cxx.to_uint32 (z + n).
Proof.
  unfold Cxx.to_uint32.
  rewrite <- Zplus_mod_idemp_l. fold (Cxx.to_uint32 (Cxx.to_int z)).
  rewrite to_uint32_to_int. unfold Cxx.to_uint32.
  now rewrite Zplus_mod_idemp_l.
Qed.

(** After [n] increments the counter holds [i + n] as far as a conversion to
    [uint32_t] can tell. *)
Lemma to_uint32_iter_incr (n : nat) (i : Z) :
  Cxx.to_uint32 (Nat.iter n Cxx.int_incr i) = Cxx.to_uint32 (i + Z.of_nat n).
Proof.
  induction n as [|n IH].
  - simpl. f_equal. lia.
  - rewrite Nat.iter_succ. unfold Cxx.int_incr at 1.
    rewrite to_uint32_to_int.
    unfold Cxx.to_uint32 in *.
    rewrite <- Zplus_mod_idemp_l, IH, Zplus_mod_idemp_l.
    f_equal. lia.
Qed.

Lemma to_uint32_small (z : Z) :
  0 <= z <= Cxx.UINT32_MAX -> Cxx.to_uint32 z = z.
Proof.
  unfold Cxx.to_uint32, Cxx.UINT32_MAX. intros H.
  apply Z.mod_small. lia.
Qed.

Lemma string_compare_refl (s : string) : String.compare s s = Eq.
Proof.
  pose proof (String.compare_antisym s s) as H.
  destruct (String.compare s s); simpl in H; congruence.
Qed.

Lemma strcmp_zero_iff (a b : string) : Cxx.strcmp a b = 0 <-> a = b.
Proof.
  unfold Cxx.strcmp. split.
  - destruct (String.compare a b) eqn:E; try discriminate.
    intros _. now apply String.compare_eq_iff.
  - intros ->. now rewrite string_compare_refl.
Qed.

(* ================================================================= *)
(** ** The layer check *)

Lemma layerFound_iff (name : string) (availableLayers : list VkLayerProperties) :
  layerFound name availableLayers = true <->
  exists layerProperties,
    In layerProperties availableLayers /\ layerName layerProperties = name.
Proof.
  induction availableLayers as [|p rest IH]; simpl.
  - split; [discriminate | intros [q [[] _]]].
  - destruct (Z.eqb_spec (Cxx.strcmp name (layerName p)) 0) as [E|E].
    + apply strcmp_zero_iff in E. split; [|reflexivity].
      intros _. exists p. auto.
    + rewrite IH. split.
      * intros [q [Hq Hn]]. exists q. auto.
      * intros [q [[->|Hq] Hn]].
        -- exfalso. apply E, strcmp_zero_iff. now symmetry.
        -- exists q. auto.
Qed.

Lemma allLayersFound_iff (layers : list string) (availableLayers : list VkLayerProperties) :
  allLayersFound layers availableLayers = true <->
  forall name, In name layers ->
    exists layerProperties,
      In layerProperties availableLayers /\ layerName layerProperties = name.
Proof.
  induction layers as [|n rest IH]; simpl.
  - split; [intros _ name [] | reflexivity].
  - destruct (layerFound n availableLayers) eqn:F; simpl.
    + rewrite IH. split.
      * intros H name [<-|Hin]; [now apply layerFound_iff | now apply H].
      * intros H name Hin. apply H. now right.
    + split; [discriminate|].
      intros H. specialize (H n (or_introl eq_refl)).
      apply layerFound_iff in H. congruence.
Qed.

(** C8. [checkValidationLayerSupport] only queries: it makes the two
    enumeration calls, leaves the application object as it was, throws
    nothing, and returns true if and only if every name of
    [validationLayers] is, character for character, the name of a layer the
    host enumerates. *)
Theorem checkValidationLayerSupport_iff_all_present
    (host : Host) (this : HelloTriangleApplication) :
  exists supported : bool,
    checkValidationLayerSupport host this =
      ([vkEnumerateInstanceLayerProperties; vkEnumerateInstanceLayerProperties],
       this, inr supported)
    /\ (supported = true <->
        forall name, In name validationLayers ->
          exists layerProperties,
            In layerProperties (host_instanceLayers host)
            /\ layerName layerProperties = name).
Proof.
  exists (allLayersFound validationLayers (host_instanceLayers host)).
  split; [reflexivity | apply allLayersFound_iff].
Qed.

(** The match is case sensitive: a layer whose name differs only in case
    does not count. *)
Example checkValidationLayerSupport_case_sensitive :
  outcome (checkValidationLayerSupport Hosts.noValidation newApplication) = inr false
  /\ outcome (checkValidationLayerSupport Hosts.good newApplication) = inr true.
Proof. split; reflexivity. Qed.

(* ================================================================= *)
(** ** The queue family scan *)

Lemma scanQueueFamilies_none (queueFamilies : list VkQueueFamilyProperties) (i : Z) :
  (forall q, In q queueFamilies -> hasGraphicsBit q = false) ->
  scanQueueFamilies queueFamilies i {| graphicsFamily := None |}
  = {| graphicsFamily := None |}.
Proof.
  revert i. induction queueFamilies as [|q rest IH]; intros i H; simpl.
  - reflexivity.
  - rewrite (H q (or_introl eq_refl)). simpl.
    apply IH. intros p Hp. apply H. now right.
Qed.

Lemma scanQueueFamilies_first
    (before : list VkQueueFamilyProperties) (q : VkQueueFamilyProperties)
    (after : list VkQueueFamilyProperties) (i : Z) :
  (forall p, In p before -> hasGraphicsBit p = false) ->
  hasGraphicsBit q = true ->
  scanQueueFamilies (before ++ q :: after) i {| graphicsFamily := None |}
  = {| graphicsFamily :=
         Some (Cxx.to_uint32 (Nat.iter (List.length before) Cxx.int_incr i)) |}.
Proof.
  revert i. induction before as [|p rest IH]; intros i Hb Hq; simpl.
  - now rewrite Hq.
  - rewrite (Hb p (or_introl eq_refl)). simpl.
    rewrite IH; [|intros r Hr; apply Hb; now right|assumption].
    now rewrite <- Nat.iter_succ_r.
Qed.

(** A list either has no family with the graphics bit or splits at the
    first one. *)
Lemma first_graphics_family (queueFamilies : list VkQueueFamilyProperties) :
  (forall q, In q queueFamilies -> hasGraphicsBit q = false)
  \/ exists before q after,
       queueFamilies = before ++ q :: after
       /\ (forall p, In p before -> hasGraphicsBit p = false)
       /\ hasGraphicsBit q = true.
Proof.
  induction queueFamilies as [|q rest IH].
  - left. intros q [].
  - destruct (hasGraphicsBit q) eqn:E.
    + right. exists [], q, rest. repeat split; auto. intros p [].
    + destruct IH as [IH | (before & r & after & -> & Hb & Hr)].
      * left. intros p [<-|Hp]; auto.
      * right. exists (q :: before), r, after. repeat split; auto.
        intros p [<-|Hp]; auto.
Qed.

Lemma fullScanFrom_recorded (queueFamilies : list VkQueueFamilyProperties)
    (index : nat) (v : Z) :
  fullScanFrom queueFamilies index (Some v) = Some v.
Proof.
  revert index. induction queueFamilies as [|q rest IH]; intros index; simpl; auto.
Qed.

Lemma fullScanFrom_none (queueFamilies : list VkQueueFamilyProperties) (index : nat) :
  (forall q, In q queueFamilies -> hasGraphicsBit q = false) ->
  fullScanFrom queueFamilies index None = None.
Proof.
  revert index. induction queueFamilies as [|q rest IH]; intros index H; simpl.
  - reflexivity.
  - rewrite (H q (or_introl eq_refl)). apply IH. intros p Hp. apply H. now right.
Qed.

Lemma fullScanFrom_first
    (before : list VkQueueFamilyProperties) (q : VkQueueFamilyProperties)
    (after : list VkQueueFamilyProperties) (index : nat) :
  (forall p, In p before -> hasGraphicsBit p = false) ->
  hasGraphicsBit q = true ->
  fullScanFrom (before ++ q :: after) index None
  = Some (Z.of_nat (index + List.length before)).
Proof.
  revert index. induction before as [|p rest IH]; intros index Hb Hq; simpl.
  - rewrite Hq, fullScanFrom_recorded. do 2 f_equal. lia.
  - rewrite (Hb p (or_introl eq_refl)).
    rewrite IH; [|intros r Hr; apply Hb; now right|assumption].
    do 2 f_equal. lia.
Qed.

(** The scan on a list the driver can report: the count is a [uint32_t]. *)
Lemma scanQueueFamilies_spec (queueFamilies : list VkQueueFamilyProperties) :
  Z.of_nat (List.length queueFamilies) <= Cxx.UINT32_MAX ->
  let indices := scanQueueFamilies queueFamilies 0 {| graphicsFamily := None |} in
  (forall k q,
      nth_error queueFamilies k = Some q ->
      hasGraphicsBit q = true ->
      (forall j p, (j < k)%nat -> nth_error queueFamilies j = Some p ->
                   hasGraphicsBit p = false) ->
      graphicsFamily indices = Some (Z.of_nat k))
  /\ ((forall q, In q queueFamilies -> hasGraphicsBit q = false) ->
      graphicsFamily indices = None /\ isComplete indices = false)
  /\ indices = fullScan queueFamilies.
Proof.
  intros Hlen indices. subst indices.
  destruct (first_graphics_family queueFamilies)
    as [Hnone | (before & q & after & -> & Hb & Hq)].
  - rewrite (@scanQueueFamilies_none _ 0 Hnone). unfold fullScan.
    rewrite (@fullScanFrom_none _ 0%nat Hnone). repeat split; auto.
    intros k q Hk Hq _. apply nth_error_In in Hk. rewrite (Hnone q Hk) in Hq.
    discriminate.
  - rewrite (@scanQueueFamilies_first before q after 0 Hb Hq). unfold fullScan.
    rewrite (@fullScanFrom_first before q after 0%nat Hb Hq).
    rewrite to_uint32_iter_incr, to_uint32_small; simpl.
    2:{ rewrite length_app in Hlen. simpl in Hlen. lia. }
    split; [|split].
    + intros k r Hk Hr Hlow. do 2 f_equal.
      destruct (Nat.lt_trichotomy k (List.length before)) as [L|[E|G]].
      * rewrite nth_error_app1 in Hk by assumption.
        apply nth_error_In in Hk. rewrite (Hb r Hk) in Hr. discriminate.
      * now subst.
      * specialize (Hlow (List.length before) q G).
        rewrite nth_error_app2, Nat.sub_diag in Hlow by lia.
        specialize (Hlow eq_refl). congruence.
    + intros Hnone. rewrite Hnone in Hq; [discriminate|].
      apply in_or_app. right. now left.
    + reflexivity.
Qed.

(** C4. For the queue families a device reports, [findQueueFamilies] makes
    its two queries, changes nothing and returns indices whose
    [graphicsFamily] is the lowest index of a family with the graphics bit;
    it holds no value, and the indices are incomplete, when no family has
    the bit; and the result is that of a scan over every family that
    records the first index with the bit. *)
Theorem findQueueFamilies_lowest_graphics_index
    (host : Host) (device_candidate : VkPhysicalDevice)
    (this : HelloTriangleApplication) :
  let queueFamilies := host_queueFamilies host device_candidate in
  Z.of_nat (List.length queueFamilies) <= Cxx.UINT32_MAX ->
  exists indices,
    findQueueFamilies host device_candidate this
      = (familyQueries device_candidate, this, inr indices)
    /\ (forall k q,
          nth_error queueFamilies k = Some q ->
          hasGraphicsBit q = true ->
          (forall j p, (j < k)%nat -> nth_error queueFamilies j = Some p ->
                       hasGraphicsBit p = false) ->
          graphicsFamily indices = Some (Z.of_nat k))
    /\ ((forall q, In q queueFamilies -> hasGraphicsBit q = false) ->
        graphicsFamily indices = None /\ isComplete indices = false)
    /\ indices = fullScan queueFamilies.
Proof.
  intros queueFamilies Hlen.
  exists (scanQueueFamilies queueFamilies 0 {| graphicsFamily := None |}).
  split; [reflexivity|].
  now apply scanQueueFamilies_spec.
Qed.

(** The third device of the workstation: families 1 and 2 have the graphics
    bit, family 0 does not; the index returned is 1. *)
Lemma findQueueFamilies_lowest_graphics_index_witness :
  exists indices,
    findQueueFamilies Hosts.good 13 newApplication
      = (familyQueries 13, newApplication, inr indices)
    /\ graphicsFamily indices = Some 1.
Proof.
  assert (Hlen : Z.of_nat (List.length (host_queueFamilies Hosts.good 13))
                 <= Cxx.UINT32_MAX) by (vm_compute; discriminate).
  destruct (findQueueFamilies_lowest_graphics_index Hosts.good 13 newApplication Hlen)
    as (indices & Hrun & Hlow & _ & _).
  exists indices. split; [exact Hrun|].
  apply (Hlow 1%nat Hosts.graphicsAndCompute); [reflexivity | reflexivity |].
  intros j p Hj Hp. assert (j = 0%nat) by lia. subst j.
  simpl in Hp. injection Hp as <-. reflexivity.
Defined.

(* ================================================================= *)
(** ** Device selection *)

Lemma isComplete_scan (queueFamilies : list VkQueueFamilyProperties) :
  isComplete (scanQueueFamilies queueFamilies 0 {| graphicsFamily := None |})
  = existsb hasGraphicsBit queueFamilies.
Proof.
  destruct (first_graphics_family queueFamilies)
    as [Hnone | (before & q & after & -> & Hb & Hq)].
  - rewrite (@scanQueueFamilies_none _ 0 Hnone). simpl.
    symmetry. apply not_true_is_false. intros E.
    apply existsb_exists in E. destruct E as (q & Hin & Hq).
    rewrite (Hnone q Hin) in Hq. discriminate.
  - rewrite (@scanQueueFamilies_first before q after 0 Hb Hq). simpl.
    symmetry. apply existsb_exists. exists q. split; [|assumption].
    apply in_or_app. right. now left.
Qed.

(** The suitability predicate queries the candidate twice and answers
    whether it has a queue family with the graphics bit. *)
Lemma isDeviceSuitable_graphicsCapable
    (host : Host) (d : VkPhysicalDevice) (this : HelloTriangleApplication) :
  isDeviceSuitable host d this = (familyQueries d, this, inr (graphicsCapable host d)).
Proof.
  unfold isDeviceSuitable, findQueueFamilies, graphicsCapable, bind, call, ret. simpl.
  now rewrite isComplete_scan.
Qed.

Lemma pickLoop_none (host : Host) (devices : list VkPhysicalDevice)
    (this : HelloTriangleApplication) :
  (forall c, In c devices -> graphicsCapable host c = false) ->
  pickLoop host devices this = (flat_map familyQueries devices, this, inr tt).
Proof.
  induction devices as [|c rest IH]; intros H.
  - reflexivity.
  - simpl pickLoop. unfold bind.
    rewrite isDeviceSuitable_graphicsCapable, (H c (or_introl eq_refl)).
    rewrite IH by (intros x Hx; apply H; now right).
    reflexivity.
Qed.

Lemma pickLoop_first (host : Host) (before : list VkPhysicalDevice)
    (d : VkPhysicalDevice) (after : list VkPhysicalDevice)
    (this : HelloTriangleApplication) :
  (forall c, In c before -> graphicsCapable host c = false) ->
  graphicsCapable host d = true ->
  pickLoop host (before ++ d :: after) this
  = (flat_map familyQueries (before ++ [d]), set_physicalDevice d this, inr tt).
Proof.
  induction before as [|c rest IH]; intros Hb Hd.
  - simpl pickLoop. unfold bind.
    rewrite isDeviceSuitable_graphicsCapable, Hd. reflexivity.
  - simpl app. simpl pickLoop. unfold bind.
    rewrite isDeviceSuitable_graphicsCapable, (Hb c (or_introl eq_refl)).
    rewrite IH by (auto; intros x Hx; apply Hb; now right).
    reflexivity.
Qed.

(** A device list either has no graphics capable candidate or splits at
    the first one. *)
Lemma first_capable_device (host : Host) (devices : list VkPhysicalDevice) :
  (forall c, In c devices -> graphicsCapable host c = false)
  \/ exists before d after,
       devices = before ++ d :: after
       /\ (forall c, In c before -> graphicsCapable host c = false)
       /\ graphicsCapable host d = true.
Proof.
  induction devices as [|c rest IH].
  - left. intros c [].
  - destruct (graphicsCapable host c) eqn:E.
    + right. exists [], c, rest. repeat split; auto. intros x [].
    + destruct IH as [IH | (before & d & after & -> & Hb & Hd)].
      * left. intros x [<-|Hx]; auto.
      * right. exists (c :: before), d, after. repeat split; auto.
        intros x [<-|Hx]; auto.
Qed.

(** [pickPhysicalDevice] on a list that splits at its first capable
    candidate. *)
Lemma pickPhysicalDevice_split (host : Host) (this : HelloTriangleApplication)
    (before : list VkPhysicalDevice) (d : VkPhysicalDevice)
    (after : list VkPhysicalDevice) :
  host_physicalDevices host (instance this) = before ++ d :: after ->
  (forall c, In c before -> graphicsCapable host c = false) ->
  graphicsCapable host d = true ->
  pickPhysicalDevice host this
  = ([vkEnumeratePhysicalDevices (instance this);
      vkEnumeratePhysicalDevices (instance this)]
       ++ flat_map familyQueries (before ++ [d]),
     set_physicalDevice d this,
     if d =? VK_NULL_HANDLE then inl NoSuitableDevice else inr tt).
Proof.
  intros Hdev Hb Hd.
  unfold pickPhysicalDevice, bind, member, call. rewrite Hdev.
  destruct (Z.eqb_spec (Z.of_nat (List.length (before ++ d :: after))) 0) as [E|_].
  { rewrite length_app in E. simpl in E. lia. }
  rewrite (pickLoop_first host before d after this Hb Hd).
  cbn [physicalDevice set_physicalDevice].
  destruct (d =? VK_NULL_HANDLE); unfold throw, ret;
    rewrite ?app_nil_r; reflexivity.
Qed.

(** [pickPhysicalDevice] on a non-empty list without a capable candidate:
    the member [physicalDevice] is left as it was. *)
Lemma pickPhysicalDevice_none (host : Host) (this : HelloTriangleApplication) :
  host_physicalDevices host (instance this) <> [] ->
  (forall c, In c (host_physicalDevices host (instance this)) ->
             graphicsCapable host c = false) ->
  pickPhysicalDevice host this
  = ([vkEnumeratePhysicalDevices (instance this);
      vkEnumeratePhysicalDevices (instance this)]
       ++ flat_map familyQueries (host_physicalDevices host (instance this)),
     this,
     if physicalDevice this =? VK_NULL_HANDLE then inl NoSuitableDevice else inr tt).
Proof.
  intros Hne Hnone.
  unfold pickPhysicalDevice, bind, member, call.
  destruct (host_physicalDevices host (instance this)) as [|c rest] eqn:Hdev;
    [congruence|].
  destruct (Z.eqb_spec (Z.of_nat (List.length (c :: rest))) 0) as [E|_].
  { simpl in E. lia. }
  rewrite (pickLoop_none host (c :: rest) this Hnone).
  destruct (physicalDevice this =? VK_NULL_HANDLE); unfold throw, ret;
    rewrite ?app_nil_r; reflexivity.
Qed.

(** [pickPhysicalDevice] on an empty enumeration. *)
Lemma pickPhysicalDevice_empty (host : Host) (this : HelloTriangleApplication) :
  host_physicalDevices host (instance this) = [] ->
  pickPhysicalDevice host this
  = ([vkEnumeratePhysicalDevices (instance this)], this, inl NoDevicesFound).
Proof.
  intros Hdev. unfold pickPhysicalDevice, bind, member, call.
  rewrite Hdev. reflexivity.
Qed.

(** C3. When the enumerated list has a graphics capable candidate and the
    handles are valid (not [VK_NULL_HANDLE]), the list splits into the
    candidates before the first capable one, that candidate and the rest;
    [pickPhysicalDevice] succeeds, stores that candidate in
    [physicalDevice], and queries the queue families of the candidates up to
    and including it and of no candidate after it. *)
Theorem pickPhysicalDevice_first_match
    (host : Host) (this : HelloTriangleApplication) :
  let devices := host_physicalDevices host (instance this) in
  (exists c, In c devices /\ graphicsCapable host c = true) ->
  (forall c, In c devices -> c <> VK_NULL_HANDLE) ->
  exists before d after,
    devices = before ++ d :: after
    /\ (forall c, In c before -> graphicsCapable host c = false)
    /\ graphicsCapable host d = true
    /\ pickPhysicalDevice host this
       = ([vkEnumeratePhysicalDevices (instance this);
           vkEnumeratePhysicalDevices (instance this)]
            ++ flat_map familyQueries (before ++ [d]),
          set_physicalDevice d this,
          inr tt).
Proof.
  intros devices (c & Hin & Hc) Hvalid.
  destruct (first_capable_device host devices)
    as [Hnone | (before & d & after & Hsplit & Hb & Hd)].
  - rewrite (Hnone c Hin) in Hc. discriminate.
  - exists before, d, after. repeat split; auto.
    rewrite (pickPhysicalDevice_split host this before d after Hsplit Hb Hd).
    destruct (Z.eqb_spec d VK_NULL_HANDLE) as [E|_]; [|reflexivity].
    exfalso. apply (Hvalid d); [|assumption].
    rewrite Hsplit. apply in_or_app. right. now left.
Qed.

(** C6. When the enumeration is empty, [pickPhysicalDevice] throws
    [NoDevicesFound] after the one call that asks for the count: no
    candidate is queried and the application object is unchanged. *)
Theorem pickPhysicalDevice_no_devices
    (host : Host) (this : HelloTriangleApplication) :
  host_physicalDevices host (instance this) = [] ->
  pickPhysicalDevice host this
  = ([vkEnumeratePhysicalDevices (instance this)], this, inl NoDevicesFound).
Proof.
  intros Hdev. unfold pickPhysicalDevice, bind, member, call.
  rewrite Hdev. reflexivity.
Qed.

(** C7. On a non-empty list of valid handles, with no device chosen yet,
    [pickPhysicalDevice] throws [NoSuitableDevice] if and only if no
    enumerated candidate is graphics capable. *)
Theorem pickPhysicalDevice_no_suitable_iff
    (host : Host) (this : HelloTriangleApplication) :
  let devices := host_physicalDevices host (instance this) in
  devices <> [] ->
  (forall c, In c devices -> c <> VK_NULL_HANDLE) ->
  physicalDevice this = VK_NULL_HANDLE ->
  outcome (pickPhysicalDevice host this) = inl NoSuitableDevice
  <-> (forall c, In c devices -> graphicsCapable host c = false).
Proof.
  intros devices Hne Hvalid Hnull. split.
  - intros Hthrow.
    destruct (first_capable_device host devices)
      as [Hnone | (before & d & after & Hsplit & Hb & Hd)]; [assumption|].
    exfalso.
    rewrite (pickPhysicalDevice_split host this before d after Hsplit Hb Hd) in Hthrow.
    unfold outcome in Hthrow. simpl in Hthrow.
    destruct (Z.eqb_spec d VK_NULL_HANDLE) as [E|_]; [|discriminate].
    apply (Hvalid d); [|assumption].
    rewrite Hsplit. apply in_or_app. right. now left.
  - intros Hnone.
    rewrite (pickPhysicalDevice_none host this Hne Hnone), Hnull.
    reflexivity.
Qed.

(** The workstation: the third of three devices is the first graphics
    capable one. *)
Lemma pickPhysicalDevice_first_match_witness :
  exists before d after,
    host_physicalDevices Hosts.good (instance newApplication) = before ++ d :: after
    /\ (forall c, In c before -> graphicsCapable Hosts.good c = false)
    /\ graphicsCapable Hosts.good d = true
    /\ pickPhysicalDevice Hosts.good newApplication
       = ([vkEnumeratePhysicalDevices (instance newApplication);
           vkEnumeratePhysicalDevices (instance newApplication)]
            ++ flat_map familyQueries (before ++ [d]),
          set_physicalDevice d newApplication,
          inr tt).
Proof.
  apply (pickPhysicalDevice_first_match Hosts.good newApplication).
  - exists 13. split; [simpl; auto | reflexivity].
  - intros c [<-|[<-|[<-|[]]]]; discriminate.
Defined.

(** Three devices, only the third with a graphics family, at family index
    1: the third is chosen after all three were queried. *)
Example pickPhysicalDevice_third_of_three :
  pickPhysicalDevice Hosts.good newApplication
  = ([vkEnumeratePhysicalDevices 0; vkEnumeratePhysicalDevices 0]
       ++ familyQueries 11 ++ familyQueries 12 ++ familyQueries 13,
     set_physicalDevice 13 newApplication, inr tt).
Proof. reflexivity. Qed.

Lemma pickPhysicalDevice_no_devices_witness :
  pickPhysicalDevice (Hosts.headless []) newApplication
  = ([vkEnumeratePhysicalDevices (instance newApplication)],
     newApplication, inl NoDevicesFound).
Proof.
  apply (pickPhysicalDevice_no_devices (Hosts.headless []) newApplication).
  reflexivity.
Defined.

Lemma pickPhysicalDevice_no_suitable_iff_witness :
  outcome (pickPhysicalDevice (Hosts.headless [5; 6]) newApplication)
    = inl NoSuitableDevice
  <-> (forall c, In c [5; 6] -> graphicsCapable (Hosts.headless [5; 6]) c = false).
Proof.
  apply (pickPhysicalDevice_no_suitable_iff (Hosts.headless [5; 6]) newApplication).
  - discriminate.
  - intros c [<-|[<-|[]]]; discriminate.
  - reflexivity.
Defined.

(* ================================================================= *)
(** ** Instance creation *)

(** C5. With the validation layers enabled and one of the requested layers
    not enumerated by the host, [createInstance] throws [LayerUnavailable]
    after the two layer enumeration calls: [vkCreateInstance] is not
    called and the application object, its [instance] member included, is
    as before. *)
Theorem createInstance_layer_unavailable
    (host : Host) (this : HelloTriangleApplication) :
  (exists name,
      In name validationLayers
      /\ forall layerProperties,
           In layerProperties (host_instanceLayers host) ->
           layerName layerProperties <> name) ->
  createInstance true host this
  = ([vkEnumerateInstanceLayerProperties; vkEnumerateInstanceLayerProperties],
     this, inl LayerUnavailable).
Proof.
  intros (name & Hin & Habsent).
  assert (Hcheck : allLayersFound validationLayers (host_instanceLayers host) = false).
  { apply not_true_is_false. intros Hall.
    destruct (proj1 (allLayersFound_iff _ _) Hall name Hin) as (p & Hp & Hn).
    exact (Habsent p Hp Hn). }
  unfold createInstance, checkValidationLayerSupport, bind, call, ret, throw.
  cbv zeta. rewrite Hcheck. reflexivity.
Qed.

(** Requested layer [VK_LAYER_KHRONOS_validation], host layers [Y] and a
    lower-case spelling of the requested name. *)
Lemma createInstance_layer_unavailable_witness :
  createInstance true Hosts.noValidation newApplication
  = ([vkEnumerateInstanceLayerProperties; vkEnumerateInstanceLayerProperties],
     newApplication, inl LayerUnavailable).
Proof.
  apply (createInstance_layer_unavailable Hosts.noValidation newApplication).
  exists "VK_LAYER_KHRONOS_validation". split; [now left|].
  intros p [<-|[<-|[]]]; discriminate.
Defined.

(** C1. With the validation layers disabled, [createInstance] makes no
    layer enumeration call, so [checkValidationLayerSupport] is not run;
    but the request it passes to [vkCreateInstance] has
    [enabledLayerCount] 1 and names [VK_LAYER_KHRONOS_validation]: the
    assignments after the extension list overwrite the 0 set in the [else]
    branch. *)
Theorem createInstance_disabled_still_requests_layer
    (host : Host) (this : HelloTriangleApplication) :
  exists createInfo,
    calls (createInstance false host this)
      = [glfwGetRequiredInstanceExtensions; vkCreateInstance createInfo]
    /\ ~ In vkEnumerateInstanceLayerProperties (calls (createInstance false host this))
    /\ VkInstanceCreateInfo.enabledLayerCount createInfo = 1
    /\ VkInstanceCreateInfo.ppEnabledLayerNames createInfo
       = ["VK_LAYER_KHRONOS_validation"].
Proof.
  unfold createInstance, do_vkCreateInstance, bind, call, ret, throw, calls.
  cbv zeta. cbn [fst snd app].
  match goal with
  | |- context [host_createInstance host ?ci] =>
      exists ci; destruct (host_createInstance host ci) as [result handle]
  end.
  destruct (result =? VK_SUCCESS); cbn.
  - repeat split; try reflexivity. intros [H|[H|[]]]; discriminate.
  - repeat split; try reflexivity. intros [H|[H|[]]]; discriminate.
Qed.

(** On a host without the validation layer, a driver that checks the layer
    list refuses the instance of a build with the layers disabled, and the
    program ends with status 1. *)
Example release_build_fails_without_validation_layer :
  exists t,
    main false Hosts.noValidation 3 = Some (t, EXIT_FAILURE)
    /\ In (std_cerr ("failed to create instance! Error code: -6" ++ Cxx.endl)%string) t.
Proof.
  eexists. split; [reflexivity|]. cbn. intuition.
Qed.

(* ================================================================= *)
(** ** Logical device creation *)

(** [createLogicalDevice] when the scan of the chosen device finds the
    family [family]. *)
Lemma createLogicalDevice_with_family
    (enableValidationLayers : bool) (host : Host)
    (this : HelloTriangleApplication) (family : Z) :
  graphicsFamily
    (scanQueueFamilies (host_queueFamilies host (physicalDevice this)) 0
       {| graphicsFamily := None |}) = Some family ->
  exists createInfo,
    VkDeviceCreateInfo.pQueueCreateInfos createInfo
      = [ {| VkDeviceQueueCreateInfo.sType := VK_STRUCTURE_TYPE_DEVICE_QUEUE_CREATE_INFO;
             VkDeviceQueueCreateInfo.queueFamilyIndex := family;
             VkDeviceQueueCreateInfo.queueCount := 1;
             VkDeviceQueueCreateInfo.pQueuePriorities := [1%Q] |} ]
    /\ VkDeviceCreateInfo.queueCreateInfoCount createInfo = 1
    /\ createLogicalDevice enableValidationLayers host this
       = let '(result, handle) :=
           host_createDevice host (physicalDevice this) createInfo in
         if result =? VK_SUCCESS
         then (familyQueries (physicalDevice this)
                 ++ [vkCreateDevice (physicalDevice this) createInfo;
                     vkGetDeviceQueue handle family 0],
               set_graphicsQueue (host_deviceQueue host handle family 0)
                 (set_device handle this),
               inr tt)
         else (familyQueries (physicalDevice this)
                 ++ [vkCreateDevice (physicalDevice this) createInfo],
               set_device handle this, inl DeviceCreationFailed).
Proof.
  intros Hfam.
  unfold createLogicalDevice, findQueueFamilies, do_vkCreateDevice,
    do_vkGetDeviceQueue, value, bind, member, call, ret, throw, assign.
  cbv zeta. cbn [fst snd app]. rewrite Hfam.
  match goal with
  | |- context [host_createDevice host _ ?ci] =>
      exists ci; destruct (host_createDevice host (physicalDevice this) ci)
        as [result handle]
  end.
  split; [reflexivity|]. split; [reflexivity|].
  destruct (result =? VK_SUCCESS); reflexivity.
Qed.

(** [createLogicalDevice] when the scan finds no family: the first call of
    [value] throws. *)
Lemma createLogicalDevice_without_family
    (enableValidationLayers : bool) (host : Host)
    (this : HelloTriangleApplication) :
  graphicsFamily
    (scanQueueFamilies (host_queueFamilies host (physicalDevice this)) 0
       {| graphicsFamily := None |}) = None ->
  createLogicalDevice enableValidationLayers host this
  = (familyQueries (physicalDevice this), this, inl bad_optional_access).
Proof.
  intros Hfam.
  unfold createLogicalDevice, findQueueFamilies, value, bind, member, call,
    ret, throw.
  cbv zeta. cbn [fst snd app]. rewrite Hfam. reflexivity.
Qed.

(** C9. When the queue family scan of the chosen device gives the index
    [family], [createLogicalDevice] calls [vkCreateDevice] once, with a
    request holding exactly one queue creation entry: family [family], one
    queue, priority 1. When the driver accepts, the one call that follows
    is [vkGetDeviceQueue] on the new device for family [family], queue
    index 0, and its handle is stored in [graphicsQueue]; when the driver
    refuses, [DeviceCreationFailed] is thrown and no queue is retrieved
    ([device] then holds what the driver left in it). *)
Theorem createLogicalDevice_single_queue
    (enableValidationLayers : bool) (host : Host)
    (this : HelloTriangleApplication) (family : Z) :
  outcome (findQueueFamilies host (physicalDevice this) this)
    = inr {| graphicsFamily := Some family |} ->
  exists createInfo,
    VkDeviceCreateInfo.pQueueCreateInfos createInfo
      = [ {| VkDeviceQueueCreateInfo.sType := VK_STRUCTURE_TYPE_DEVICE_QUEUE_CREATE_INFO;
             VkDeviceQueueCreateInfo.queueFamilyIndex := family;
             VkDeviceQueueCreateInfo.queueCount := 1;
             VkDeviceQueueCreateInfo.pQueuePriorities := [1%Q] |} ]
    /\ VkDeviceCreateInfo.queueCreateInfoCount createInfo = 1
    /\ createLogicalDevice enableValidationLayers host this
       = let '(result, handle) :=
           host_createDevice host (physicalDevice this) createInfo in
         if result =? VK_SUCCESS
         then (familyQueries (physicalDevice this)
                 ++ [vkCreateDevice (physicalDevice this) createInfo;
                     vkGetDeviceQueue handle family 0],
               set_graphicsQueue (host_deviceQueue host handle family 0)
                 (set_device handle this),
               inr tt)
         else (familyQueries (physicalDevice this)
                 ++ [vkCreateDevice (physicalDevice this) createInfo],
               set_device handle this, inl DeviceCreationFailed).
Proof.
  intros Hfam. unfold outcome, findQueueFamilies, bind, call, ret in Hfam.
  cbn in Hfam. injection Hfam as Hfam.
  apply createLogicalDevice_with_family. now rewrite Hfam.
Qed.

Lemma createLogicalDevice_single_queue_witness :
  exists createInfo,
    VkDeviceCreateInfo.pQueueCreateInfos createInfo
      = [ {| VkDeviceQueueCreateInfo.sType := VK_STRUCTURE_TYPE_DEVICE_QUEUE_CREATE_INFO;
             VkDeviceQueueCreateInfo.queueFamilyIndex := 1;
             VkDeviceQueueCreateInfo.queueCount := 1;
             VkDeviceQueueCreateInfo.pQueuePriorities := [1%Q] |} ]
    /\ VkDeviceCreateInfo.queueCreateInfoCount createInfo = 1
    /\ createLogicalDevice true Hosts.good (set_physicalDevice 13 newApplication)
       = (familyQueries 13
            ++ [vkCreateDevice 13 createInfo; vkGetDeviceQueue 12288 1 0],
          set_graphicsQueue 12305
            (set_device 12288 (set_physicalDevice 13 newApplication)),
          inr tt).
Proof.
  destruct (createLogicalDevice_single_queue true Hosts.good
              (set_physicalDevice 13 newApplication) 1 eq_refl)
    as (createInfo & Hq & Hc & Hrun).
  exists createInfo. split; [exact Hq|]. split; [exact Hc|]. exact Hrun.
Defined.

(** C10. When the suitability predicate holds of the chosen device, neither
    call of [value] in [createLogicalDevice] throws: the function either
    succeeds or throws [DeviceCreationFailed]. *)
Theorem createLogicalDevice_value_present
    (enableValidationLayers : bool) (host : Host)
    (this : HelloTriangleApplication) :
  outcome (isDeviceSuitable host (physicalDevice this) this) = inr true ->
  outcome (createLogicalDevice enableValidationLayers host this)
    <> inl bad_optional_access
  /\ (outcome (createLogicalDevice enableValidationLayers host this) = inr tt
      \/ outcome (createLogicalDevice enableValidationLayers host this)
         = inl DeviceCreationFailed).
Proof.
  intros Hsuit.
  unfold outcome, isDeviceSuitable, findQueueFamilies, bind, call, ret in Hsuit.
  cbn in Hsuit. injection Hsuit as Hsuit.
  unfold isComplete in Hsuit.
  destruct (graphicsFamily
              (scanQueueFamilies (host_queueFamilies host (physicalDevice this)) 0
                 {| graphicsFamily := None |})) as [family|] eqn:Hfam;
    [clear Hsuit | discriminate].
  destruct (createLogicalDevice_with_family enableValidationLayers host this
              family Hfam) as (createInfo & _ & _ & ->).
  destruct (host_createDevice host (physicalDevice this) createInfo)
    as [result handle].
  destruct (result =? VK_SUCCESS); cbn; split; auto; discriminate.
Qed.

Lemma createLogicalDevice_value_present_witness :
  outcome (createLogicalDevice true Hosts.good (set_physicalDevice 13 newApplication))
    <> inl bad_optional_access
  /\ (outcome (createLogicalDevice true Hosts.good
                 (set_physicalDevice 13 newApplication)) = inr tt
      \/ outcome (createLogicalDevice true Hosts.good
                    (set_physicalDevice 13 newApplication))
         = inl DeviceCreationFailed).
Proof.
  apply (createLogicalDevice_value_present true Hosts.good
           (set_physicalDevice 13 newApplication)).
  reflexivity.
Defined.

(* ================================================================= *)
(** ** The life cycle: what is created, what is released *)

Lemma released_app (t1 t2 : list Call) : released (t1 ++ t2) = released t1 ++ released t2.
Proof. apply filter_app. Qed.

Lemma owed_app (host : Host) (t1 t2 : list Call) :
  owed host (t1 ++ t2) = owed host t1 ++ owed host t2.
Proof. apply flat_map_app. Qed.

Lemma familyQueries_ledger (host : Host) (devices : list VkPhysicalDevice) :
  released (flat_map familyQueries devices) = []
  /\ owed host (flat_map familyQueries devices) = [].
Proof.
  induction devices as [|d rest [IHr IHo]]; [split; reflexivity|].
  change (flat_map familyQueries (d :: rest))
    with (familyQueries d ++ flat_map familyQueries rest).
  rewrite released_app, owed_app, IHr, IHo. split; reflexivity.
Qed.

Lemma bind_run {A B : Type} (m : M A) (k : A -> M B) (this : HelloTriangleApplication) :
  bind m k this
  = match m this with
    | (t1, this1, inl e) => (t1, this1, inl e)
    | (t1, this1, inr a) =>
        let '(t2, this2, r2) := k a this1 in (t1 ++ t2, this2, r2)
    end.
Proof.
  unfold bind. destruct (m this) as [[t1 this1] [e|a]]; reflexivity.
Qed.

Lemma initWindow_run (host : Host) (this : HelloTriangleApplication) :
  initWindow host this
  = ([glfwInit;
      glfwWindowHint GLFW_CLIENT_API GLFW_NO_API;
      glfwWindowHint GLFW_RESIZABLE GLFW_FALSE;
      glfwCreateWindow WIDTH HEIGHT "Vulkan"],
     set_window (host_createWindow host) this, inr tt).
Proof. reflexivity. Qed.

Lemma cleanup_run (this : HelloTriangleApplication) :
  cleanup this
  = ([vkDestroyDevice (device this); vkDestroyInstance (instance this);
      glfwDestroyWindow (window this); glfwTerminate],
     this, inr tt).
Proof. reflexivity. Qed.

(** [createInstance] releases nothing, keeps the window, and on success
    owes the release of the instance it stored. *)
Lemma createInstance_ledger (enableValidationLayers : bool) (host : Host)
    (this : HelloTriangleApplication) :
  let o := createInstance enableValidationLayers host this in
  released (calls o) = []
  /\ window (object o) = window this
  /\ (forall u, outcome o = inr u ->
        owed host (calls o) = [vkDestroyInstance (instance (object o))]).
Proof.
  unfold createInstance, checkValidationLayerSupport, do_vkCreateInstance,
    bind, call, ret, throw, calls, object, outcome.
  cbv zeta.
  destruct enableValidationLayers; cbn [fst snd app];
    [destruct (allLayersFound validationLayers (host_instanceLayers host));
     cbn [negb fst snd app]|];
    try (repeat split; try reflexivity; discriminate);
    match goal with
    | |- context [host_createInstance host ?ci] =>
        generalize ci; intros createInfo;
        destruct (host_createInstance host createInfo) as [result handle] eqn:Hhost
    end;
    destruct (result =? VK_SUCCESS) eqn:Hres; cbn;
    (split; [reflexivity|]; split; [reflexivity|]);
    intros u Hu; try discriminate;
    rewrite Hhost, Hres; reflexivity.
Qed.

(** [pickPhysicalDevice] creates and releases nothing and keeps the window
    and the instance. *)
Lemma pickPhysicalDevice_ledger (host : Host) (this : HelloTriangleApplication) :
  let o := pickPhysicalDevice host this in
  released (calls o) = []
  /\ owed host (calls o) = []
  /\ window (object o) = window this
  /\ instance (object o) = instance this
  /\ device (object o) = device this.
Proof.
  cbv zeta.
  destruct (host_physicalDevices host (instance this)) as [|c rest] eqn:Hdev.
  - rewrite (pickPhysicalDevice_empty host this Hdev).
    repeat split; reflexivity.
  - assert (Hne : host_physicalDevices host (instance this) <> [])
      by (rewrite Hdev; discriminate).
    destruct (first_capable_device host (host_physicalDevices host (instance this)))
      as [Hnone | (before & d & after & Hsplit & Hb & Hd)].
    + rewrite (pickPhysicalDevice_none host this Hne Hnone).
      unfold calls, object. cbn [fst snd].
      rewrite released_app, owed_app.
      destruct (familyQueries_ledger host (host_physicalDevices host (instance this)))
        as [-> ->].
      repeat split; reflexivity.
    + rewrite (pickPhysicalDevice_split host this before d after Hsplit Hb Hd).
      unfold calls, object. cbn [fst snd].
      rewrite released_app, owed_app.
      destruct (familyQueries_ledger host (before ++ [d])) as [-> ->].
      repeat split; reflexivity.
Qed.

(** [createLogicalDevice] releases nothing, keeps the window and the
    instance, and on success owes the release of the device it stored. *)
Lemma createLogicalDevice_ledger (enableValidationLayers : bool) (host : Host)
    (this : HelloTriangleApplication) :
  let o := createLogicalDevice enableValidationLayers host this in
  released (calls o) = []
  /\ window (object o) = window this
  /\ instance (object o) = instance this
  /\ (forall u, outcome o = inr u ->
        owed host (calls o) = [vkDestroyDevice (device (object o))]).
Proof.
  cbv zeta.
  destruct (graphicsFamily
              (scanQueueFamilies (host_queueFamilies host (physicalDevice this)) 0
                 {| graphicsFamily := None |})) as [family|] eqn:Hfam.
  - destruct (createLogicalDevice_with_family enableValidationLayers host this
                family Hfam) as (createInfo & _ & _ & ->).
    destruct (host_createDevice host (physicalDevice this) createInfo)
      as [result handle] eqn:Hhost.
    destruct (result =? VK_SUCCESS) eqn:Hres;
      unfold calls, object, outcome; cbn [fst snd];
      (split; [reflexivity|]; split; [reflexivity|]; split; [reflexivity|]);
      intros u Hu; try discriminate.
    cbn. rewrite Hhost, Hres. reflexivity.
  - rewrite (createLogicalDevice_without_family enableValidationLayers host this Hfam).
    repeat split; try reflexivity. discriminate.
Qed.

(** Start-up, [initWindow] then [initVulkan]: nothing is released; when it
    completes, the releases owed are those of the window, the instance and
    the device held by the application object, in that order. *)
Lemma startup_ledger (enableValidationLayers : bool) (host : Host)
    (this : HelloTriangleApplication) :
  let o := (initWindow host ;; initVulkan enableValidationLayers host) this in
  released (calls o) = []
  /\ (forall u, outcome o = inr u ->
        owed host (calls o)
        = [glfwDestroyWindow (window (object o));
           vkDestroyInstance (instance (object o));
           vkDestroyDevice (device (object o))]).
Proof.
  cbv zeta. unfold initVulkan. rewrite bind_run, initWindow_run.
  set (this1 := set_window (host_createWindow host) this).
  rewrite bind_run.
  pose proof (createInstance_ledger enableValidationLayers host this1) as Hci.
  cbv zeta in Hci.
  destruct (createInstance enableValidationLayers host this1)
    as [[t2 this2] [e2|u2]].
  { unfold calls, object, outcome in *. cbn [fst snd] in *.
    destruct Hci as (Hr & _). split; [|discriminate].
    rewrite released_app, Hr. reflexivity. }
  rewrite bind_run.
  pose proof (pickPhysicalDevice_ledger host this2) as Hpp. cbv zeta in Hpp.
  destruct (pickPhysicalDevice host this2) as [[t3 this3] [e3|u3]].
  { unfold calls, object, outcome in *. cbn [fst snd] in *.
    destruct Hci as (Hr & _). destruct Hpp as (Hr3 & _).
    split; [|discriminate].
    rewrite !released_app, Hr, Hr3. reflexivity. }
  pose proof (createLogicalDevice_ledger enableValidationLayers host this3) as Hld.
  cbv zeta in Hld.
  destruct (createLogicalDevice enableValidationLayers host this3)
    as [[t4 this4] r4].
  unfold calls, object, outcome in *. cbn [fst snd] in *.
  destruct Hci as (Hr2 & Hw2 & Ho2).
  destruct Hpp as (Hr3 & Ho3 & Hw3 & Hi3 & _).
  destruct Hld as (Hr4 & Hw4 & Hi4 & Ho4).
  split.
  - rewrite !released_app, Hr2, Hr3, Hr4. reflexivity.
  - intros u Hu. rewrite !owed_app, (Ho2 u2 eq_refl), Ho3, (Ho4 u Hu).
    cbn. rewrite Hw4, Hw3, Hw2, Hi4, Hi3. reflexivity.
Qed.

(** The main loop ends once the close request has arrived; it creates and
    releases nothing. *)
Lemma mainLoop_ends (host : Host) (this : HelloTriangleApplication) (closing : nat) :
  host_windowShouldClose host closing = true ->
  forall fuel polls : nat,
    (polls <= closing < polls + fuel)%nat ->
    exists t,
      mainLoop host fuel polls this = Some t
      /\ released t = [] /\ owed host t = [].
Proof.
  intros Hclose. induction fuel as [|fuel IH]; intros polls Hb; [lia|].
  simpl mainLoop.
  destruct (host_windowShouldClose host polls) eqn:Hnow.
  - eexists. repeat split; reflexivity.
  - assert (polls <> closing) by congruence.
    destruct (IH (S polls)) as (t & -> & Hr & Ho); [lia|].
    eexists. split; [reflexivity|]. cbn. split; assumption.
Qed.

(* ================================================================= *)
(** ** The precondition of [createLogicalDevice] in the program *)

Lemma createInstance_keeps_physicalDevice (enableValidationLayers : bool)
    (host : Host) (this : HelloTriangleApplication) :
  let o := createInstance enableValidationLayers host this in
  physicalDevice (object o) = physicalDevice this
  /\ outcome o <> inl bad_optional_access.
Proof.
  unfold createInstance, checkValidationLayerSupport, do_vkCreateInstance,
    bind, call, ret, throw, object, outcome.
  cbv zeta.
  destruct enableValidationLayers; cbn [fst snd app];
    [destruct (allLayersFound validationLayers (host_instanceLayers host));
     cbn [negb fst snd app]|];
    try (split; [reflexivity | discriminate]);
    match goal with
    | |- context [host_createInstance host ?ci] =>
        generalize ci; intros createInfo;
        destruct (host_createInstance host createInfo) as [result handle]
    end;
    destruct (result =? VK_SUCCESS); cbn;
    (split; [reflexivity | discriminate]).
Qed.

Lemma pickPhysicalDevice_chooses_capable (host : Host)
    (this : HelloTriangleApplication) :
  physicalDevice this = VK_NULL_HANDLE ->
  let o := pickPhysicalDevice host this in
  outcome o <> inl bad_optional_access
  /\ (forall u, outcome o = inr u ->
        graphicsCapable host (physicalDevice (object o)) = true).
Proof.
  intros Hnull. cbv zeta.
  destruct (host_physicalDevices host (instance this)) as [|c rest] eqn:Hdev.
  - rewrite (pickPhysicalDevice_empty host this Hdev).
    split; [discriminate | intros u Hu; discriminate].
  - assert (Hne : host_physicalDevices host (instance this) <> [])
      by (rewrite Hdev; discriminate).
    destruct (first_capable_device host (host_physicalDevices host (instance this)))
      as [Hnone | (before & d & after & Hsplit & Hb & Hd)].
    + rewrite (pickPhysicalDevice_none host this Hne Hnone), Hnull.
      split; [discriminate | intros u Hu; discriminate].
    + rewrite (pickPhysicalDevice_split host this before d after Hsplit Hb Hd).
      unfold outcome, object. cbn [fst snd].
      destruct (d =? VK_NULL_HANDLE); split; try discriminate.
      intros _ _. exact Hd.
Qed.

(** In the program the precondition of C10 holds whenever
    [createLogicalDevice] is reached: start-up never throws
    [bad_optional_access]. *)
Lemma startup_value_present (enableValidationLayers : bool) (host : Host) :
  outcome ((initWindow host ;; initVulkan enableValidationLayers host) newApplication)
  <> inl bad_optional_access.
Proof.
  unfold initVulkan. rewrite bind_run, initWindow_run.
  set (this1 := set_window (host_createWindow host) newApplication).
  rewrite bind_run.
  pose proof (createInstance_keeps_physicalDevice enableValidationLayers host this1)
    as Hci. cbv zeta in Hci.
  destruct (createInstance enableValidationLayers host this1)
    as [[t2 this2] [e2|u2]];
    unfold object, outcome in Hci; cbn [fst snd] in Hci;
    destruct Hci as (Hpd & Hex); [exact Hex|].
  rewrite bind_run.
  pose proof (pickPhysicalDevice_chooses_capable host this2 Hpd) as Hpp.
  cbv zeta in Hpp.
  destruct (pickPhysicalDevice host this2) as [[t3 this3] [e3|u3]];
    unfold object, outcome in Hpp; cbn [fst snd] in Hpp;
    destruct Hpp as (Hex3 & Hcap); [exact Hex3|].
  specialize (Hcap u3 eq_refl).
  unfold graphicsCapable in Hcap. rewrite <- isComplete_scan in Hcap.
  unfold isComplete in Hcap.
  destruct (graphicsFamily
              (scanQueueFamilies (host_queueFamilies host (physicalDevice this3)) 0
                 {| graphicsFamily := None |})) as [family|] eqn:Hfam;
    [|discriminate].
  destruct (createLogicalDevice_with_family enableValidationLayers host this3
              family Hfam) as (createInfo & _ & _ & ->).
  destruct (host_createDevice host (physicalDevice this3) createInfo)
    as [result handle].
  destruct (result =? VK_SUCCESS); cbn; discriminate.
Qed.

(* ================================================================= *)
(** ** Further properties of the queue family scan *)

Lemma to_int_small (z : Z) : - 2 ^ 31 <= z < 2 ^ 31 -> Cxx.to_int z = z.
Proof.
  intros H. unfold Cxx.to_int. rewrite Z.mod_small; lia.
Qed.

Lemma int_incr_iter_small (n : nat) (i : Z) :
  0 <= i ->
  i + Z.of_nat n <= 2 ^ 31 - 1 ->
  Nat.iter n Cxx.int_incr i = i + Z.of_nat n.
Proof.
  intros Hi. induction n as [|n IH]; intros H.
  - simpl. lia.
  - rewrite Nat.iter_succ, IH by lia.
    unfold Cxx.int_incr. rewrite to_int_small; lia.
Qed.

(** X1. The loop of [findQueueFamilies], entered with the counter at
    [i >= 0] and no index recorded, records at the first family with the
    graphics bit exactly [i] plus the number of families it skipped, as long
    as that sum is at most 2^31 - 1: neither [i++] nor the conversion to
    [uint32_t] wraps. *)
Theorem scanQueueFamilies_counter_exact
    (before : list VkQueueFamilyProperties) (q : VkQueueFamilyProperties)
    (after : list VkQueueFamilyProperties) (i : Z) :
  0 <= i ->
  i + Z.of_nat (List.length before) <= 2 ^ 31 - 1 ->
  (forall p, In p before -> hasGraphicsBit p = false) ->
  hasGraphicsBit q = true ->
  scanQueueFamilies (before ++ q :: after) i {| graphicsFamily := None |}
  = {| graphicsFamily := Some (i + Z.of_nat (List.length before)) |}.
Proof.
  intros Hi Hmax Hb Hq.
  rewrite (scanQueueFamilies_first before q after i Hb Hq).
  rewrite int_incr_iter_small by assumption.
  rewrite to_uint32_small; [reflexivity|]. unfold Cxx.UINT32_MAX. lia.
Qed.

(** The families of the third device of the workstation, the loop entered
    as the program enters it: one family skipped, index 1. *)
Lemma scanQueueFamilies_counter_exact_witness :
  scanQueueFamilies
    ([Hosts.transferOnly] ++ Hosts.graphicsAndCompute :: [Hosts.graphicsAndCompute])
    0 {| graphicsFamily := None |}
  = {| graphicsFamily := Some (0 + Z.of_nat (List.length [Hosts.transferOnly])) |}.
Proof.
  apply (scanQueueFamilies_counter_exact
           [Hosts.transferOnly] Hosts.graphicsAndCompute [Hosts.graphicsAndCompute] 0).
  - lia.
  - vm_compute. discriminate.
  - intros p [<-|[]]. reflexivity.
  - reflexivity.
Defined.

(** X2. The test [queueFlags & VK_QUEUE_GRAPHICS_BIT] reads bit 0 of the
    flags and nothing else. *)
Theorem hasGraphicsBit_is_bit0 (queueFamily : VkQueueFamilyProperties) :
  hasGraphicsBit queueFamily = Z.testbit (queueFlags queueFamily) 0.
Proof.
  unfold hasGraphicsBit, VK_QUEUE_GRAPHICS_BIT.
  change 1 with (Z.ones 1). rewrite Z.land_ones by lia.
  change (2 ^ 1) with 2. rewrite <- Z.bit0_mod.
  destruct (Z.testbit (queueFlags queueFamily) 0); reflexivity.
Qed.

(** X3. [isDeviceSuitable] makes the two queue family queries, changes
    nothing, throws nothing, and answers true exactly when the candidate
    reports a queue family with the graphics bit, whatever the number of
    families. *)
Theorem isDeviceSuitable_iff_graphics_family
    (host : Host) (device_candidate : VkPhysicalDevice)
    (this : HelloTriangleApplication) :
  exists suitable : bool,
    isDeviceSuitable host device_candidate this
      = (familyQueries device_candidate, this, inr suitable)
    /\ (suitable = true <->
        exists q, In q (host_queueFamilies host device_candidate)
                  /\ hasGraphicsBit q = true).
Proof.
  exists (graphicsCapable host device_candidate).
  split; [apply isDeviceSuitable_graphicsCapable|].
  unfold graphicsCapable. apply existsb_exists.
Qed.

(** X4. A device without a graphics queue family makes
    [createLogicalDevice] throw [bad_optional_access] at the first call of
    [value]: the two queries are the only calls, [vkCreateDevice] is not
    reached and the application object is unchanged. *)
Theorem createLogicalDevice_no_graphics_family
    (enableValidationLayers : bool) (host : Host)
    (this : HelloTriangleApplication) :
  (forall q, In q (host_queueFamilies host (physicalDevice this)) ->
             hasGraphicsBit q = false) ->
  createLogicalDevice enableValidationLayers host this
  = (familyQueries (physicalDevice this), this, inl bad_optional_access).
Proof.
  intros Hnone. apply createLogicalDevice_without_family.
  now rewrite (scanQueueFamilies_none _ 0 Hnone).
Qed.

Lemma createLogicalDevice_no_graphics_family_witness :
  createLogicalDevice false (Hosts.headless [5]) (set_physicalDevice 5 newApplication)
  = (familyQueries 5, set_physicalDevice 5 newApplication, inl bad_optional_access).
Proof.
  apply (createLogicalDevice_no_graphics_family false (Hosts.headless [5])
           (set_physicalDevice 5 newApplication)).
  intros q [<-|[<-|[]]]; reflexivity.
Defined.

(* ================================================================= *)
(** ** Further properties of the layer check *)

(** X5. The answer of [checkValidationLayerSupport] depends on the
    enumerated layers only through the names present: a host that
    enumerates every layer name another host does, in any order and with
    any repetition, supports the validation layers whenever the other
    does. *)
Theorem checkValidationLayerSupport_monotone
    (host1 host2 : Host) (this1 this2 : HelloTriangleApplication) :
  (forall p, In p (host_instanceLayers host1) ->
     exists p', In p' (host_instanceLayers host2) /\ layerName p' = layerName p) ->
  outcome (checkValidationLayerSupport host1 this1) = inr true ->
  outcome (checkValidationLayerSupport host2 this2) = inr true.
Proof.
  intros Hincl H1.
  change (inr (allLayersFound validationLayers (host_instanceLayers host1))
          = @inr exception bool true) in H1.
  change (inr (allLayersFound validationLayers (host_instanceLayers host2))
          = @inr exception bool true).
  assert (H1' : allLayersFound validationLayers (host_instanceLayers host1) = true)
    by congruence.
  f_equal.
  apply allLayersFound_iff. intros name Hname.
  destruct (proj1 (allLayersFound_iff _ _) H1' name Hname) as (p & Hp & Hn).
  destruct (Hincl p Hp) as (p' & Hp' & Hn'). exists p'. split; congruence.
Qed.

Lemma checkValidationLayerSupport_monotone_witness :
  outcome (checkValidationLayerSupport
             (Hosts.workstation (rev Hosts.khronos ++ Hosts.otherLayers) VK_SUCCESS)
             newApplication) = inr true.
Proof.
  apply (checkValidationLayerSupport_monotone Hosts.good
           (Hosts.workstation (rev Hosts.khronos ++ Hosts.otherLayers) VK_SUCCESS)
           newApplication newApplication).
  - intros p [<-|[<-|[]]]; eexists; (split; [|reflexivity]); cbn; auto.
  - reflexivity.
Defined.

(* ================================================================= *)
(** ** The main loop *)

Lemma mainLoop_none_from (host : Host) (this : HelloTriangleApplication)
    (fuel polls : nat) :
  mainLoop host fuel polls this = None
  <-> (forall j, (polls <= j < polls + fuel)%nat ->
                 host_windowShouldClose host j = false).
Proof.
  revert polls. induction fuel as [|fuel IH]; intros polls; simpl mainLoop.
  - split; [intros _ j Hj; lia | reflexivity].
  - destruct (host_windowShouldClose host polls) eqn:Hnow.
    + split; [discriminate|]. intros H. rewrite H in Hnow by lia. discriminate.
    + destruct (mainLoop host fuel (S polls) this) eqn:Hrec.
      * split; [discriminate|]. intros H. exfalso.
        assert (mainLoop host fuel (S polls) this = None) as Hnone.
        { apply IH. intros j Hj. apply H. lia. }
        congruence.
      * split; [|reflexivity]. intros _ j Hj.
        destruct (Nat.eq_dec j polls) as [->|Hne]; [assumption|].
        apply (proj1 (IH (S polls)) Hrec). lia.
Qed.

Lemma mainLoop_calls_from (host : Host) (this : HelloTriangleApplication)
    (polled : nat) :
  forall fuel polls : nat,
    (forall j, (polls <= j < polls + polled)%nat ->
               host_windowShouldClose host j = false) ->
    host_windowShouldClose host (polls + polled) = true ->
    (polled < fuel)%nat ->
    mainLoop host fuel polls this = Some (loopCalls (window this) polled).
Proof.
  induction polled as [|n IH]; intros fuel polls Hopen Hclose Hfuel;
    (destruct fuel as [|fuel]; [lia|]); simpl mainLoop.
  - rewrite Nat.add_0_r in Hclose. now rewrite Hclose.
  - rewrite (Hopen polls) by lia.
    rewrite (IH fuel (S polls)); [reflexivity | | | lia].
    + intros j Hj. apply Hopen. lia.
    + now replace (S polls + n)%nat with (polls + S n)%nat by lia.
Qed.

(** X6. The main loop has not ended within [fuel] tests of its condition
    exactly when the first [fuel] answers of [glfwWindowShouldClose] were
    all false; with a window that is never closed it does not end. *)
Theorem mainLoop_runs_while_open (host : Host) (this : HelloTriangleApplication)
    (fuel : nat) :
  mainLoop host fuel 0 this = None
  <-> (forall j, (j < fuel)%nat -> host_windowShouldClose host j = false).
Proof.
  rewrite mainLoop_none_from. split; intros H j Hj; apply H; lia.
Qed.

(** X7. When the close request is first seen after [polled] polls, the main
    loop tests the condition [polled + 1] times and calls [glfwPollEvents]
    after each test but the last; it calls nothing else. *)
Theorem mainLoop_polls_until_close (host : Host) (this : HelloTriangleApplication)
    (polled fuel : nat) :
  (forall j, (j < polled)%nat -> host_windowShouldClose host j = false) ->
  host_windowShouldClose host polled = true ->
  (polled < fuel)%nat ->
  mainLoop host fuel 0 this = Some (loopCalls (window this) polled).
Proof.
  intros Hopen Hclose Hfuel.
  apply mainLoop_calls_from; [intros j Hj; apply Hopen; lia | assumption | assumption].
Qed.

Lemma mainLoop_polls_until_close_witness :
  mainLoop Hosts.good 5 0 (set_window 4096 newApplication)
  = Some [glfwWindowShouldClose 4096; glfwPollEvents;
          glfwWindowShouldClose 4096; glfwPollEvents;
          glfwWindowShouldClose 4096].
Proof.
  apply (mainLoop_polls_until_close Hosts.good (set_window 4096 newApplication) 2 5).
  - intros j Hj. assert (j = 0 \/ j = 1)%nat as [-> | ->] by lia; reflexivity.
  - reflexivity.
  - lia.
Defined.

(* ================================================================= *)
(** ** The requests and results of the two creation functions *)

(** [createInstance], case by case. *)
Lemma createInstance_cases (enableValidationLayers : bool) (host : Host)
    (this : HelloTriangleApplication) :
  let enabledExtensions :=
    host_requiredInstanceExtensions host ++ ["VK_KHR_portability_enumeration"] in
  let createInfo :=
    {| VkInstanceCreateInfo.sType := VK_STRUCTURE_TYPE_INSTANCE_CREATE_INFO;
       VkInstanceCreateInfo.flags := VK_INSTANCE_CREATE_ENUMERATE_PORTABILITY_BIT_KHR;
       VkInstanceCreateInfo.pApplicationInfo :=
         Some {| VkApplicationInfo.sType := VK_STRUCTURE_TYPE_APPLICATION_INFO;
                 VkApplicationInfo.pApplicationName := "Hello Triangle";
                 VkApplicationInfo.applicationVersion := VK_MAKE_VERSION 1 0 0;
                 VkApplicationInfo.pEngineName := "No Engine";
                 VkApplicationInfo.engineVersion := VK_MAKE_VERSION 1 0 0;
                 VkApplicationInfo.apiVersion := VK_API_VERSION_1_2 |};
       VkInstanceCreateInfo.enabledLayerCount :=
         Cxx.to_uint32 (Z.of_nat (List.length validationLayers));
       VkInstanceCreateInfo.ppEnabledLayerNames := validationLayers;
       VkInstanceCreateInfo.enabledExtensionCount :=
         Cxx.to_uint32 (Z.of_nat (List.length enabledExtensions));
       VkInstanceCreateInfo.ppEnabledExtensionNames := enabledExtensions |} in
  createInstance enableValidationLayers host this
  = if enableValidationLayers
       && negb (allLayersFound validationLayers (host_instanceLayers host))
    then (layerQueries, this, inl LayerUnavailable)
    else
      ((if enableValidationLayers then layerQueries else [])
         ++ [glfwGetRequiredInstanceExtensions; vkCreateInstance createInfo],
       set_instance (snd (host_createInstance host createInfo)) this,
       if fst (host_createInstance host createInfo) =? VK_SUCCESS
       then inr tt
       else inl (InstanceCreationFailed (fst (host_createInstance host createInfo)))).
Proof.
  cbv zeta.
  unfold createInstance, checkValidationLayerSupport, do_vkCreateInstance,
    bind, call, ret, throw.
  cbv zeta.
  cbv beta iota delta
    [VkInstanceCreateInfo.set_sType VkInstanceCreateInfo.set_flags
     VkInstanceCreateInfo.set_pApplicationInfo
     VkInstanceCreateInfo.set_enabledLayerCount
     VkInstanceCreateInfo.set_ppEnabledLayerNames
     VkInstanceCreateInfo.set_enabledExtensionCount
     VkInstanceCreateInfo.set_ppEnabledExtensionNames
     VkInstanceCreateInfo.zero
     VkInstanceCreateInfo.sType VkInstanceCreateInfo.flags
     VkInstanceCreateInfo.pApplicationInfo
     VkInstanceCreateInfo.enabledLayerCount
     VkInstanceCreateInfo.ppEnabledLayerNames
     VkInstanceCreateInfo.enabledExtensionCount
     VkInstanceCreateInfo.ppEnabledExtensionNames].
  destruct enableValidationLayers; cbn [fst snd app andb];
    [destruct (allLayersFound validationLayers (host_instanceLayers host));
     cbn [negb fst snd app]; [|reflexivity]|];
    match goal with
    | |- context [host_createInstance host ?ci] =>
        destruct (host_createInstance host ci) as [result handle]
    end;
    cbn [fst snd]; destruct (result =? VK_SUCCESS); reflexivity.
Qed.

(** [createLogicalDevice], case by case. *)
Lemma createLogicalDevice_cases (enableValidationLayers : bool) (host : Host)
    (this : HelloTriangleApplication) :
  createLogicalDevice enableValidationLayers host this
  = match graphicsFamily
            (scanQueueFamilies (host_queueFamilies host (physicalDevice this)) 0
               {| graphicsFamily := None |}) with
    | None => (familyQueries (physicalDevice this), this, inl bad_optional_access)
    | Some family =>
        let createInfo :=
          {| VkDeviceCreateInfo.sType := VK_STRUCTURE_TYPE_DEVICE_CREATE_INFO;
             VkDeviceCreateInfo.pQueueCreateInfos :=
               [ {| VkDeviceQueueCreateInfo.sType :=
                      VK_STRUCTURE_TYPE_DEVICE_QUEUE_CREATE_INFO;
                    VkDeviceQueueCreateInfo.queueFamilyIndex := family;
                    VkDeviceQueueCreateInfo.queueCount := 1;
                    VkDeviceQueueCreateInfo.pQueuePriorities := [1%Q] |} ];
             VkDeviceCreateInfo.queueCreateInfoCount := 1;
             VkDeviceCreateInfo.pEnabledFeatures := Some noDeviceFeatures;
             VkDeviceCreateInfo.enabledExtensionCount := 2;
             VkDeviceCreateInfo.ppEnabledExtensionNames :=
               ["VK_KHR_swapchain"; "VK_KHR_portability_subset"];
             VkDeviceCreateInfo.enabledLayerCount :=
               if enableValidationLayers then 1 else 0;
             VkDeviceCreateInfo.ppEnabledLayerNames :=
               if enableValidationLayers then ["VK_LAYER_KHRONOS_validation"]
               else [] |} in
        let r := host_createDevice host (physicalDevice this) createInfo in
        if fst r =? VK_SUCCESS
        then (familyQueries (physicalDevice this)
                ++ [vkCreateDevice (physicalDevice this) createInfo;
                    vkGetDeviceQueue (snd r) family 0],
              set_graphicsQueue (host_deviceQueue host (snd r) family 0)
                (set_device (snd r) this),
              inr tt)
        else (familyQueries (physicalDevice this)
                ++ [vkCreateDevice (physicalDevice this) createInfo],
              set_device (snd r) this, inl DeviceCreationFailed)
    end.
Proof.
  unfold createLogicalDevice, findQueueFamilies, do_vkCreateDevice,
    do_vkGetDeviceQueue, value, bind, member, call, ret, throw, assign.
  cbv zeta. cbn [fst snd app].
  destruct (graphicsFamily _) as [family|]; [|reflexivity].
  destruct enableValidationLayers;
    match goal with
    | |- context [host_createDevice host _ ?ci] =>
        destruct (host_createDevice host (physicalDevice this) ci)
          as [result handle] eqn:Hhost
    end;
    change (Cxx.to_uint32 (Z.of_nat (List.length validationLayers))) with 1 in *;
    change (Cxx.to_uint32
              (Z.of_nat (List.length [VK_KHR_SWAPCHAIN_EXTENSION_NAME;
                                      "VK_KHR_portability_subset"]))) with 2 in *;
    change validationLayers with ["VK_LAYER_KHRONOS_validation"] in *;
    change VK_KHR_SWAPCHAIN_EXTENSION_NAME with "VK_KHR_swapchain" in *;
    rewrite Hhost; cbn [fst snd];
    destruct (result =? VK_SUCCESS); reflexivity.
Qed.

(** X8. Whatever the build flag, a request [createInstance] passes to
    [vkCreateInstance] has the portability enumeration flag, names the
    application "Hello Triangle" with API version 1.2, and lists the
    extensions GLFW requires, in GLFW's order, followed by
    [VK_KHR_portability_enumeration]; the extension count is their number
    plus one. *)
Theorem createInstance_request_contents
    (enableValidationLayers : bool) (host : Host)
    (this : HelloTriangleApplication) (createInfo : VkInstanceCreateInfo.t) :
  In (vkCreateInstance createInfo)
     (calls (createInstance enableValidationLayers host this)) ->
  VkInstanceCreateInfo.flags createInfo
    = VK_INSTANCE_CREATE_ENUMERATE_PORTABILITY_BIT_KHR
  /\ (exists appInfo,
        VkInstanceCreateInfo.pApplicationInfo createInfo = Some appInfo
        /\ VkApplicationInfo.pApplicationName appInfo = "Hello Triangle"
        /\ VkApplicationInfo.apiVersion appInfo = VK_API_VERSION_1_2)
  /\ VkInstanceCreateInfo.ppEnabledExtensionNames createInfo
     = host_requiredInstanceExtensions host ++ ["VK_KHR_portability_enumeration"]
  /\ (Z.of_nat (List.length (host_requiredInstanceExtensions host)) < Cxx.UINT32_MAX ->
      VkInstanceCreateInfo.enabledExtensionCount createInfo
      = Z.of_nat (List.length (host_requiredInstanceExtensions host)) + 1).
Proof.
  rewrite createInstance_cases. cbv zeta. intros Hin.
  destruct (enableValidationLayers
            && negb (allLayersFound validationLayers (host_instanceLayers host))).
  - unfold calls in Hin. cbn in Hin.
    destruct Hin as [H|[H|[]]]; discriminate.
  - unfold calls in Hin. cbn [fst snd] in Hin.
    apply in_app_or in Hin. destruct Hin as [Hin|Hin].
    + destruct enableValidationLayers; cbn in Hin; [|contradiction].
      destruct Hin as [H|[H|[]]]; discriminate.
    + destruct Hin as [H|[H|[]]]; [discriminate|].
      injection H as <-. cbn.
      split; [reflexivity|]. split; [eexists; repeat split|].
      split; [reflexivity|].
      intros Hlen. rewrite length_app, Nat2Z.inj_add. cbn [List.length Z.of_nat].
      apply to_uint32_small. unfold Cxx.UINT32_MAX in *. lia.
Qed.

Lemma createInstance_request_contents_witness :
  exists createInfo,
    In (vkCreateInstance createInfo)
       (calls (createInstance false Hosts.good newApplication))
    /\ VkInstanceCreateInfo.ppEnabledExtensionNames createInfo
       = ["VK_KHR_surface"; "VK_EXT_metal_surface"; "VK_KHR_portability_enumeration"]
    /\ VkInstanceCreateInfo.enabledExtensionCount createInfo = 3.
Proof.
  pose (createInfo :=
          match nth 1 (calls (createInstance false Hosts.good newApplication)) glfwInit with
          | vkCreateInstance c => c
          | _ => VkInstanceCreateInfo.zero
          end).
  assert (Hin : In (vkCreateInstance createInfo)
                   (calls (createInstance false Hosts.good newApplication)))
    by (right; left; reflexivity).
  exists createInfo. split; [exact Hin|].
  destruct (createInstance_request_contents false Hosts.good newApplication
              createInfo Hin) as (_ & _ & Hnames & Hcount).
  split; [exact Hnames|].
  apply Hcount. vm_compute. reflexivity.
Defined.

(** X9. Once the layer check has passed (or is skipped, the layers being
    disabled), [createInstance] asks GLFW for its extensions and calls
    [vkCreateInstance] once. Of the application object only [instance]
    is written: it holds what the driver left in the output handle, the new
    instance on [VK_SUCCESS]. On [VK_SUCCESS] the function returns; on any
    other result the exception thrown carries the result code in decimal. *)
Theorem createInstance_stores_handle_or_reports_code
    (enableValidationLayers : bool) (host : Host)
    (this : HelloTriangleApplication) :
  (enableValidationLayers = true ->
   forall name, In name validationLayers ->
     exists layerProperties,
       In layerProperties (host_instanceLayers host)
       /\ layerName layerProperties = name) ->
  exists createInfo,
    calls (createInstance enableValidationLayers host this)
    = (if enableValidationLayers then layerQueries else [])
        ++ [glfwGetRequiredInstanceExtensions; vkCreateInstance createInfo]
    /\ let '(result, handle) := host_createInstance host createInfo in
       object (createInstance enableValidationLayers host this)
         = set_instance handle this
       /\ (result = VK_SUCCESS ->
           outcome (createInstance enableValidationLayers host this) = inr tt)
       /\ (result <> VK_SUCCESS ->
           outcome (createInstance enableValidationLayers host this)
           = inl (runtime_error
                    ("failed to create instance! Error code: "
                     ++ Cxx.to_string result)%string)).
Proof.
  intros Hlayers. rewrite createInstance_cases. cbv zeta.
  assert (Hpass : enableValidationLayers
                  && negb (allLayersFound validationLayers (host_instanceLayers host))
                  = false).
  { destruct enableValidationLayers; [|reflexivity].
    cbn [andb]. rewrite (proj2 (allLayersFound_iff _ _) (Hlayers eq_refl)).
    reflexivity. }
  rewrite Hpass.
  eexists. split; [reflexivity|].
  destruct (host_createInstance host _) as [result handle].
  unfold object, outcome. cbn [fst snd].
  split; [reflexivity|].
  destruct (Z.eqb_spec result VK_SUCCESS) as [E|E]; split; intros H;
    try contradiction; reflexivity.
Qed.

Lemma createInstance_stores_handle_or_reports_code_witness :
  exists createInfo,
    calls (createInstance true Hosts.good newApplication)
    = layerQueries ++ [glfwGetRequiredInstanceExtensions; vkCreateInstance createInfo]
    /\ object (createInstance true Hosts.good newApplication)
       = set_instance 8192 newApplication
    /\ outcome (createInstance true Hosts.good newApplication) = inr tt.
Proof.
  destruct (createInstance_stores_handle_or_reports_code true Hosts.good newApplication)
    as (createInfo & Hcalls & Hres).
  - intros _ name [<-|[]]. eexists. split; [right; left; reflexivity | reflexivity].
  - exists createInfo. split; [exact Hcalls|].
    assert (Hhost : host_createInstance Hosts.good createInfo = (VK_SUCCESS, 8192)).
    { injection Hcalls as <-. reflexivity. }
    rewrite Hhost in Hres. destruct Hres as (Hobj & Hok & _).
    split; [exact Hobj | apply Hok; reflexivity].
Defined.

(** The refusal of the strict driver on a host without the validation
    layer: the message ends with the code -6. *)
Example createInstance_reports_layer_not_present :
  outcome (createInstance false Hosts.noValidation newApplication)
  = inl (runtime_error "failed to create instance! Error code: -6").
Proof. reflexivity. Qed.

(** X10. The one request [createLogicalDevice] passes to [vkCreateDevice]
    is for the device held in [physicalDevice], enables no optional
    feature, lists the swapchain and portability subset extensions, and
    carries the validation layer exactly when the layers are enabled:
    count 0 and no names otherwise. *)
Theorem createLogicalDevice_request_contents
    (enableValidationLayers : bool) (host : Host)
    (this : HelloTriangleApplication)
    (d : VkPhysicalDevice) (createInfo : VkDeviceCreateInfo.t) :
  In (vkCreateDevice d createInfo)
     (calls (createLogicalDevice enableValidationLayers host this)) ->
  d = physicalDevice this
  /\ VkDeviceCreateInfo.pEnabledFeatures createInfo
     = Some {| featureFlags := repeat 0 55 |}
  /\ VkDeviceCreateInfo.ppEnabledExtensionNames createInfo
     = ["VK_KHR_swapchain"; "VK_KHR_portability_subset"]
  /\ VkDeviceCreateInfo.enabledExtensionCount createInfo = 2
  /\ VkDeviceCreateInfo.enabledLayerCount createInfo
     = (if enableValidationLayers then 1 else 0)
  /\ VkDeviceCreateInfo.ppEnabledLayerNames createInfo
     = (if enableValidationLayers then ["VK_LAYER_KHRONOS_validation"] else []).
Proof.
  rewrite createLogicalDevice_cases. intros Hin.
  destruct (graphicsFamily _) as [family|].
  - cbv zeta in Hin.
    destruct (fst (host_createDevice host (physicalDevice this) _) =? VK_SUCCESS);
      unfold calls in Hin; cbn [fst snd familyQueries app] in Hin;
      repeat (destruct Hin as [Hin|Hin]; try discriminate; try contradiction);
      injection Hin as <- <-; repeat split; reflexivity.
  - unfold calls in Hin. cbn in Hin.
    destruct Hin as [H|[H|[]]]; discriminate.
Qed.

Lemma createLogicalDevice_request_contents_witness :
  exists createInfo,
    In (vkCreateDevice 13 createInfo)
       (calls (createLogicalDevice false Hosts.good (set_physicalDevice 13 newApplication)))
    /\ VkDeviceCreateInfo.enabledLayerCount createInfo = 0
    /\ VkDeviceCreateInfo.ppEnabledLayerNames createInfo = [].
Proof.
  pose (createInfo :=
          match nth 2 (calls (createLogicalDevice false Hosts.good
                                (set_physicalDevice 13 newApplication))) glfwInit with
          | vkCreateDevice _ c => c
          | _ => {| VkDeviceCreateInfo.sType := 0;
                    VkDeviceCreateInfo.pQueueCreateInfos := [];
                    VkDeviceCreateInfo.queueCreateInfoCount := 0;
                    VkDeviceCreateInfo.pEnabledFeatures := None;
                    VkDeviceCreateInfo.enabledExtensionCount := 0;
                    VkDeviceCreateInfo.ppEnabledExtensionNames := [];
                    VkDeviceCreateInfo.enabledLayerCount := 0;
                    VkDeviceCreateInfo.ppEnabledLayerNames := [] |}
          end).
  assert (Hin : In (vkCreateDevice 13 createInfo)
                   (calls (createLogicalDevice false Hosts.good
                             (set_physicalDevice 13 newApplication))))
    by (right; right; left; reflexivity).
  exists createInfo. split; [exact Hin|].
  destruct (createLogicalDevice_request_contents false Hosts.good
              (set_physicalDevice 13 newApplication) 13 createInfo Hin)
    as (_ & _ & _ & _ & Hcount & Hnames).
  split; [exact Hcount | exact Hnames].
Defined.

(* ================================================================= *)
(** ** Start-up, case by case *)

Lemma filter_familyQueries (f : Call -> bool) (devices : list VkPhysicalDevice) :
  (forall d, f (vkGetPhysicalDeviceQueueFamilyProperties d) = false) ->
  filter f (flat_map familyQueries devices) = [].
Proof.
  intros Hf. induction devices as [|d rest IH]; [reflexivity|].
  cbn. now rewrite !Hf.
Qed.

(** Every way [startUp] can end on a fresh application object, with the
    calls made. *)
Lemma startUp_cases (enableValidationLayers : bool) (host : Host) :
  let this1 := set_window (host_createWindow host) newApplication in
  exists iInfo : VkInstanceCreateInfo.t,
    let tI :=
      windowCalls
        ++ (if enableValidationLayers then layerQueries else [])
        ++ [glfwGetRequiredInstanceExtensions; vkCreateInstance iInfo] in
    (enableValidationLayers = true
     /\ startUp enableValidationLayers host newApplication
        = (windowCalls ++ layerQueries, this1, inl LayerUnavailable))
    \/ (exists code,
          fst (host_createInstance host iInfo) = code
          /\ code <> VK_SUCCESS
          /\ startUp enableValidationLayers host newApplication
             = (tI, set_instance (snd (host_createInstance host iInfo)) this1,
                inl (InstanceCreationFailed code)))
    \/ (exists i,
          host_createInstance host iInfo = (VK_SUCCESS, i)
          /\ let this2 := set_instance i this1 in
             let devices := host_physicalDevices host i in
             (devices = []
              /\ startUp enableValidationLayers host newApplication
                 = (tI ++ [vkEnumeratePhysicalDevices i], this2, inl NoDevicesFound))
             \/ (devices <> []
                 /\ (forall c, In c devices -> graphicsCapable host c = false)
                 /\ startUp enableValidationLayers host newApplication
                    = (tI ++ [vkEnumeratePhysicalDevices i; vkEnumeratePhysicalDevices i]
                          ++ flat_map familyQueries devices,
                       this2, inl NoSuitableDevice))
             \/ (exists before d after,
                   devices = before ++ d :: after
                   /\ (forall c, In c before -> graphicsCapable host c = false)
                   /\ graphicsCapable host d = true
                   /\ let tP :=
                        tI ++ [vkEnumeratePhysicalDevices i; vkEnumeratePhysicalDevices i]
                           ++ flat_map familyQueries (before ++ [d]) in
                      let this3 := set_physicalDevice d this2 in
                      (d = VK_NULL_HANDLE
                       /\ startUp enableValidationLayers host newApplication
                          = (tP, this3, inl NoSuitableDevice))
                      \/ (d <> VK_NULL_HANDLE
                          /\ exists family dInfo,
                               graphicsFamily
                                 (scanQueueFamilies (host_queueFamilies host d) 0
                                    {| graphicsFamily := None |}) = Some family
                               /\ ((fst (host_createDevice host d dInfo) <> VK_SUCCESS
                                    /\ startUp enableValidationLayers host newApplication
                                       = (tP ++ familyQueries d ++ [vkCreateDevice d dInfo],
                                          set_device
                                            (snd (host_createDevice host d dInfo)) this3,
                                          inl DeviceCreationFailed))
                                   \/ (exists dev,
                                         host_createDevice host d dInfo = (VK_SUCCESS, dev)
                                         /\ startUp enableValidationLayers host newApplication
                                            = (tP ++ familyQueries d
                                                  ++ [vkCreateDevice d dInfo;
                                                      vkGetDeviceQueue dev family 0],
                                               set_graphicsQueue
                                                 (host_deviceQueue host dev family 0)
                                                 (set_device dev this3),
                                               inr tt)))))).
Proof.
  cbv zeta. unfold startUp, initVulkan.
  rewrite bind_run, initWindow_run. fold windowCalls.
  set (this1 := set_window (host_createWindow host) newApplication).
  rewrite bind_run, createInstance_cases. cbv zeta.
  match goal with
  | |- context [host_createInstance host ?ci] => set (iInfo := ci)
  end.
  exists iInfo.
  destruct (enableValidationLayers
            && negb (allLayersFound validationLayers (host_instanceLayers host)))
    eqn:Hcheck.
  { left. apply andb_prop in Hcheck. destruct Hcheck as [-> _].
    split; reflexivity. }
  right.
  destruct (host_createInstance host iInfo) as [code i] eqn:Hhost. cbn [fst snd].
  destruct (Z.eqb_spec code VK_SUCCESS) as [->|Hcode].
  2:{ left. exists code. repeat split; auto. }
  right. exists i. split; [reflexivity|].
  set (this2 := set_instance i this1).
  rewrite bind_run.
  assert (Hinst : instance this2 = i) by reflexivity.
  assert (Hnull : physicalDevice this2 = VK_NULL_HANDLE) by reflexivity.
  destruct (host_physicalDevices host i) as [|c0 rest0] eqn:Hdev.
  { left. split; [reflexivity|].
    rewrite (pickPhysicalDevice_empty host this2) by (now rewrite Hinst).
    rewrite Hinst, <- !app_assoc. reflexivity. }
  right. rewrite <- Hdev.
  assert (Hne : host_physicalDevices host (instance this2) <> [])
    by (rewrite Hinst, Hdev; discriminate).
  destruct (first_capable_device host (host_physicalDevices host (instance this2)))
    as [Hnone | (before & d & after & Hsplit & Hb & Hd)].
  { left. rewrite Hinst in Hne, Hnone. split; [assumption|]. split; [assumption|].
    rewrite (pickPhysicalDevice_none host this2) by (rewrite ?Hinst; assumption).
    rewrite Hnull, Hinst. cbn [Z.eqb VK_NULL_HANDLE].
    rewrite <- !app_assoc. reflexivity. }
  right. exists before, d, after. rewrite Hinst in Hsplit.
  split; [assumption|]. split; [assumption|]. split; [assumption|].
  rewrite (pickPhysicalDevice_split host this2 before d after)
    by (rewrite ?Hinst; assumption).
  rewrite Hinst.
  destruct (Z.eqb_spec d VK_NULL_HANDLE) as [Hd0|Hd0].
  { left. split; [assumption|]. rewrite <- !app_assoc. reflexivity. }
  right. split; [assumption|].
  set (this3 := set_physicalDevice d this2).
  rewrite createLogicalDevice_cases.
  change (physicalDevice this3) with d.
  assert (Hsome : isComplete
                    (scanQueueFamilies (host_queueFamilies host d) 0
                       {| graphicsFamily := None |}) = true)
    by (rewrite isComplete_scan; exact Hd).
  unfold isComplete in Hsome.
  destruct (graphicsFamily
              (scanQueueFamilies (host_queueFamilies host d) 0
                 {| graphicsFamily := None |})) as [family|]; [|discriminate].
  cbv zeta.
  match goal with
  | |- context [host_createDevice host d ?ci] => set (dInfo := ci)
  end.
  exists family, dInfo. split; [reflexivity|].
  destruct (host_createDevice host d dInfo) as [dcode dev] eqn:Hdhost. cbn [fst snd].
  destruct (Z.eqb_spec dcode VK_SUCCESS) as [->|Hdcode].
  - right. exists dev. split; [reflexivity|].
    rewrite <- !app_assoc. reflexivity.
  - left. split; [assumption|]. rewrite <- !app_assoc. reflexivity.
Qed.

(** X11. On a fresh application object, start-up can only fail in five
    ways: [LayerUnavailable] (only with the layers enabled),
    [InstanceCreationFailed] with a result code other than [VK_SUCCESS],
    [NoDevicesFound], [NoSuitableDevice] or [DeviceCreationFailed]. *)
Theorem startUp_error_kinds
    (enableValidationLayers : bool) (host : Host) (e : exception) :
  outcome (startUp enableValidationLayers host newApplication) = inl e ->
  (enableValidationLayers = true /\ e = LayerUnavailable)
  \/ (exists code, code <> VK_SUCCESS /\ e = InstanceCreationFailed code)
  \/ e = NoDevicesFound
  \/ e = NoSuitableDevice
  \/ e = DeviceCreationFailed.
Proof.
  intros He.
  destruct (startUp_cases enableValidationLayers host) as (iInfo & Hcases).
  cbv zeta in Hcases. unfold outcome in He.
  destruct Hcases as
    [(Hflag & Heq)
    |[(code & _ & Hcode & Heq)
     |(i & _ & [(_ & Heq)
               |[(_ & _ & Heq)
                |(before & d & after & _ & _ & _ &
                  [(_ & Heq)
                  |(_ & family & dInfo & _ & [(_ & Heq)|(dev & _ & Heq)])])]])]];
    rewrite Heq in He; cbn in He; try discriminate; injection He as <-; auto.
  right. left. exists code. auto.
Qed.

Lemma startUp_error_kinds_witness :
  (true = true /\ DeviceCreationFailed = LayerUnavailable)
  \/ (exists code, code <> VK_SUCCESS /\ DeviceCreationFailed = InstanceCreationFailed code)
  \/ DeviceCreationFailed = NoDevicesFound
  \/ DeviceCreationFailed = NoSuitableDevice
  \/ DeviceCreationFailed = DeviceCreationFailed.
Proof.
  apply (startUp_error_kinds true Hosts.refusesDevice DeviceCreationFailed).
  reflexivity.
Defined.

(** X12. When start-up completes, the application object holds: the window
    GLFW returned; an instance the driver returned with [VK_SUCCESS]; as
    [physicalDevice] the first graphics capable device of the instance's
    enumeration, which is not [VK_NULL_HANDLE]; a device the driver returned
    with [VK_SUCCESS] for it; and as [graphicsQueue] queue 0 of that
    device's lowest graphics family as found by the scan. *)
Theorem startUp_success_state (enableValidationLayers : bool) (host : Host) :
  outcome (startUp enableValidationLayers host newApplication) = inr tt ->
  let this := object (startUp enableValidationLayers host newApplication) in
  window this = host_createWindow host
  /\ (exists iInfo, host_createInstance host iInfo = (VK_SUCCESS, instance this))
  /\ (exists before after,
        host_physicalDevices host (instance this)
          = before ++ physicalDevice this :: after
        /\ forall c, In c before -> graphicsCapable host c = false)
  /\ graphicsCapable host (physicalDevice this) = true
  /\ physicalDevice this <> VK_NULL_HANDLE
  /\ exists family dInfo,
       graphicsFamily
         (scanQueueFamilies (host_queueFamilies host (physicalDevice this)) 0
            {| graphicsFamily := None |}) = Some family
       /\ host_createDevice host (physicalDevice this) dInfo = (VK_SUCCESS, device this)
       /\ graphicsQueue this = host_deviceQueue host (device this) family 0.
Proof.
  intros Hok. cbv zeta.
  destruct (startUp_cases enableValidationLayers host) as (iInfo & Hcases).
  cbv zeta in Hcases. unfold outcome in Hok. unfold object.
  destruct Hcases as
    [(Hflag & Heq)
    |[(code & _ & Hcode & Heq)
     |(i & Hi & [(_ & Heq)
               |[(_ & _ & Heq)
                |(before & d & after & Hsplit & Hb & Hd &
                  [(_ & Heq)
                  |(Hd0 & family & dInfo & Hfam &
                    [(_ & Heq)|(dev & Hdev & Heq)])])]])]];
    rewrite Heq in Hok |- *; cbn in Hok; try discriminate.
  cbn [fst snd window instance physicalDevice device graphicsQueue
       set_window set_instance set_physicalDevice set_device set_graphicsQueue].
  split; [reflexivity|]. split; [exists iInfo; assumption|].
  split; [exists before, after; split; assumption|].
  split; [assumption|]. split; [assumption|].
  exists family, dInfo. repeat split; assumption.
Qed.

Lemma startUp_success_state_witness :
  let this := object (startUp true Hosts.good newApplication) in
  physicalDevice this = 13 /\ device this = 12288 /\ graphicsQueue this = 12305
  /\ graphicsCapable Hosts.good (physicalDevice this) = true
  /\ physicalDevice this <> VK_NULL_HANDLE.
Proof.
  cbv zeta.
  destruct (startUp_success_state true Hosts.good eq_refl)
    as (_ & _ & _ & Hcap & Hnn & _).
  split; [reflexivity|]. split; [reflexivity|]. split; [reflexivity|].
  split; [exact Hcap | exact Hnn].
Defined.

(* ================================================================= *)
(** ** The whole run *)

(** [main] in terms of start-up, the loop and [cleanup]. *)
Lemma main_cases (enableValidationLayers : bool) (host : Host) (fuel : nat) :
  let banner :=
    std_cout ("Validation layers enabled: "
              ++ (if enableValidationLayers then "1" else "0") ++ Cxx.endl)%string in
  let su := startUp enableValidationLayers host newApplication in
  main enableValidationLayers host fuel
  = match outcome su with
    | inl e =>
        Some (banner :: calls su ++ [std_cerr (what e ++ Cxx.endl)%string], EXIT_FAILURE)
    | inr _ =>
        match mainLoop host fuel 0 (object su) with
        | None => None
        | Some t =>
            Some (banner :: calls su ++ t
                    ++ [vkDestroyDevice (device (object su));
                        vkDestroyInstance (instance (object su));
                        glfwDestroyWindow (window (object su)); glfwTerminate],
                  EXIT_SUCCESS)
        end
    end.
Proof.
  cbv zeta. unfold main, run.
  change (initWindow host ;; initVulkan enableValidationLayers host)
    with (startUp enableValidationLayers host).
  destruct (startUp enableValidationLayers host newApplication)
    as [[t1 this1] [e|u]]; unfold outcome, calls, object; cbn [fst snd].
  - reflexivity.
  - destruct (mainLoop host fuel 0 this1); [|reflexivity].
    rewrite cleanup_run. reflexivity.
Qed.

Lemma mainLoop_some (host : Host) (this : HelloTriangleApplication) :
  forall (fuel polls : nat) (t : list Call),
    mainLoop host fuel polls this = Some t ->
    exists polled, t = loopCalls (window this) polled.
Proof.
  induction fuel as [|fuel IH]; intros polls t H; simpl in H; [discriminate|].
  destruct (host_windowShouldClose host polls).
  - injection H as <-. now exists 0%nat.
  - destruct (mainLoop host fuel (S polls) this) as [t'|] eqn:Hrec; [|discriminate].
    injection H as <-. destruct (IH (S polls) t' Hrec) as (k & ->).
    now exists (S k).
Qed.

Lemma creations_loopCalls (w : GLFWwindow_ptr) (polled : nat) :
  filter isCreation (loopCalls w polled) = [].
Proof. induction polled as [|n IH]; [reflexivity | exact IH]. Qed.

Ltac filter_calls :=
  repeat first
    [ rewrite filter_app
    | rewrite filter_familyQueries by reflexivity
    | rewrite creations_loopCalls
    | progress cbn [filter isCreation isLoopCall isRelease] ].

Lemma startUp_no_loop_call (enableValidationLayers : bool) (host : Host) :
  filter isLoopCall (calls (startUp enableValidationLayers host newApplication)) = [].
Proof.
  destruct (startUp_cases enableValidationLayers host) as (iInfo & Hcases).
  cbv zeta in Hcases. unfold calls.
  destruct Hcases as
    [(Hflag & Heq)
    |[(code & _ & Hcode & Heq)
     |(i & _ & [(_ & Heq)
               |[(_ & _ & Heq)
                |(before & d & after & _ & _ & _ &
                  [(_ & Heq)
                  |(_ & family & dInfo & _ & [(_ & Heq)|(dev & _ & Heq)])])]])]];
    rewrite Heq; cbn [fst snd];
    rewrite ?filter_app, ?filter_familyQueries by reflexivity;
    destruct enableValidationLayers; reflexivity.
Qed.

(** X13. When start-up throws, [main] ends with status 1 whatever the
    bound on the loop: the main loop is not entered (no close test, no
    poll), nothing is released, and the last call writes the message of the
    exception to the error stream. *)
Theorem main_reports_failure_without_loop
    (enableValidationLayers : bool) (host : Host) (e : exception) (fuel : nat) :
  outcome (startUp enableValidationLayers host newApplication) = inl e ->
  exists t,
    main enableValidationLayers host fuel
      = Some (t ++ [std_cerr (what e ++ Cxx.endl)%string], EXIT_FAILURE)
    /\ filter isLoopCall t = []
    /\ released t = [].
Proof.
  intros He. rewrite main_cases. cbv zeta. rewrite He.
  eexists (_ :: _). split; [reflexivity|].
  split.
  - cbn [filter isLoopCall]. apply startUp_no_loop_call.
  - cbn [released filter isRelease].
    exact (proj1 (startup_ledger enableValidationLayers host newApplication)).
Qed.

Lemma main_reports_failure_without_loop_witness :
  exists t,
    main true (Hosts.headless []) 0
      = Some (t ++ [std_cerr ("failed to find GPUs with Vulkan support!" ++ Cxx.endl)%string],
              EXIT_FAILURE)
    /\ filter isLoopCall t = []
    /\ released t = [].
Proof.
  apply (main_reports_failure_without_loop true (Hosts.headless []) NoDevicesFound 0).
  reflexivity.
Defined.

(** X14. [main] has not returned within [fuel] tests of the loop condition
    exactly when start-up completed and the first [fuel] answers of
    [glfwWindowShouldClose] were all false: once start-up has succeeded,
    only a close request ends the program. *)
Theorem main_runs_until_close
    (enableValidationLayers : bool) (host : Host) (fuel : nat) :
  main enableValidationLayers host fuel = None
  <-> outcome (startUp enableValidationLayers host newApplication) = inr tt
      /\ (forall j, (j < fuel)%nat -> host_windowShouldClose host j = false).
Proof.
  rewrite main_cases. cbv zeta.
  destruct (outcome (startUp enableValidationLayers host newApplication)) as [e|[]].
  - split; [discriminate | intros [H _]; discriminate].
  - destruct (mainLoop host fuel 0
                (object (startUp enableValidationLayers host newApplication)))
      as [t|] eqn:Hloop.
    + split; [discriminate|]. intros [_ Hopen]. exfalso.
      assert (Hnone : mainLoop host fuel 0
                        (object (startUp enableValidationLayers host newApplication))
                      = None).
      { apply mainLoop_none_from. intros j Hj. apply Hopen. lia. }
      congruence.
    + split; [|reflexivity]. intros _. split; [reflexivity|].
      intros j Hj. apply (proj1 (mainLoop_none_from _ _ _ _) Hloop). lia.
Qed.

(** X15. In any run that returns, the creation calls are made in the order
    window, instance, device and each at most once; the instance is
    requested only after the window, and a device is requested only after
    the driver returned an instance with [VK_SUCCESS], and only on a graphics
    capable device of that instance's enumeration. A run with status 0 made
    all three. *)
Theorem creations_in_order
    (enableValidationLayers : bool) (host : Host) (fuel : nat)
    (t : list Call) (status : Z) :
  main enableValidationLayers host fuel = Some (t, status) ->
  exists iInfo d dInfo,
    (creations t = [glfwCreateWindow WIDTH HEIGHT "Vulkan"]
     \/ creations t = [glfwCreateWindow WIDTH HEIGHT "Vulkan"; vkCreateInstance iInfo]
     \/ (creations t
           = [glfwCreateWindow WIDTH HEIGHT "Vulkan"; vkCreateInstance iInfo;
              vkCreateDevice d dInfo]
         /\ fst (host_createInstance host iInfo) = VK_SUCCESS
         /\ In d (host_physicalDevices host (snd (host_createInstance host iInfo)))
         /\ graphicsCapable host d = true))
    /\ (status = EXIT_SUCCESS ->
        creations t
        = [glfwCreateWindow WIDTH HEIGHT "Vulkan"; vkCreateInstance iInfo;
           vkCreateDevice d dInfo]).
Proof.
  rewrite main_cases. cbv zeta. intros Hmain.
  destruct (startUp_cases enableValidationLayers host) as (iInfo & Hcases).
  cbv zeta in Hcases. exists iInfo.
  destruct Hcases as
    [(Hflag & Heq)
    |[(code & _ & Hcode & Heq)
     |(i & Hi & [(_ & Heq)
               |[(_ & _ & Heq)
                |(before & d & after & Hsplit & Hb & Hd &
                  [(_ & Heq)
                  |(Hd0 & family & dInfo & Hfam &
                    [(_ & Heq)|(dev & Hdev & Heq)])])]])]];
    rewrite Heq in Hmain; unfold outcome, calls, object in Hmain;
    cbn [fst snd] in Hmain.
  7:{ destruct (mainLoop host fuel 0 _) as [t2|] eqn:Hloop; [|discriminate].
      destruct (mainLoop_some _ _ _ _ _ Hloop) as (polled & ->).
      injection Hmain as <- <-. exists d, dInfo.
      match goal with
      | |- (_ \/ _ \/ (creations ?tr = ?l /\ _)) /\ _ =>
          assert (Hc : creations tr = l)
      end.
      { unfold creations. filter_calls.
        destruct enableValidationLayers; reflexivity. }
      split; [|intros _; exact Hc].
      right. right. split; [exact Hc|]. rewrite Hi. cbn [fst snd].
      split; [reflexivity|]. split; [|assumption].
      rewrite Hsplit. apply in_or_app. right. now left. }
  6:{ injection Hmain as <- <-. exists d, dInfo.
      split; [|discriminate].
      right. right. split.
      - unfold creations. filter_calls.
        destruct enableValidationLayers; reflexivity.
      - rewrite Hi. cbn [fst snd].
        split; [reflexivity|]. split; [|assumption].
        rewrite Hsplit. apply in_or_app. right. now left. }
  all: injection Hmain as <- <-.
  all: exists 0, {| VkDeviceCreateInfo.sType := 0;
                    VkDeviceCreateInfo.pQueueCreateInfos := [];
                    VkDeviceCreateInfo.queueCreateInfoCount := 0;
                    VkDeviceCreateInfo.pEnabledFeatures := None;
                    VkDeviceCreateInfo.enabledExtensionCount := 0;
                    VkDeviceCreateInfo.ppEnabledExtensionNames := [];
                    VkDeviceCreateInfo.enabledLayerCount := 0;
                    VkDeviceCreateInfo.ppEnabledLayerNames := [] |}.
  all: (split; [|discriminate]).
  all: unfold creations; filter_calls.
  all: destruct enableValidationLayers; cbn; auto.
Qed.

Lemma creations_in_order_witness :
  exists t iInfo d dInfo,
    main true Hosts.good 3 = Some (t, EXIT_SUCCESS)
    /\ creations t
       = [glfwCreateWindow WIDTH HEIGHT "Vulkan"; vkCreateInstance iInfo;
          vkCreateDevice d dInfo].
Proof.
  destruct (main true Hosts.good 3) as [[t status]|] eqn:Hmain; [|discriminate].
  assert (Hstatus : status = EXIT_SUCCESS) by (injection Hmain as _ <-; reflexivity).
  subst status.
  destruct (creations_in_order true Hosts.good 3 t EXIT_SUCCESS Hmain)
    as (iInfo & d & dInfo & _ & Hall).
  exists t, iInfo, d, dInfo. split; [reflexivity | apply Hall; reflexivity].
Defined.

(** X16. A run whose start-up completes and whose close request is first
    seen after [polled] polls makes, after the calls of start-up, the
    [polled + 1] close tests with a poll between them, then the four calls
    of [cleanup] on the handles start-up stored, [glfwTerminate] last, and
    returns status 0. *)
Theorem main_success_trace
    (enableValidationLayers : bool) (host : Host) (polled fuel : nat) :
  outcome (startUp enableValidationLayers host newApplication) = inr tt ->
  (forall j, (j < polled)%nat -> host_windowShouldClose host j = false) ->
  host_windowShouldClose host polled = true ->
  (polled < fuel)%nat ->
  let this := object (startUp enableValidationLayers host newApplication) in
  main enableValidationLayers host fuel
  = Some (std_cout ("Validation layers enabled: "
                    ++ (if enableValidationLayers then "1" else "0")
                    ++ Cxx.endl)%string
            :: calls (startUp enableValidationLayers host newApplication)
            ++ loopCalls (window this) polled
            ++ [vkDestroyDevice (device this); vkDestroyInstance (instance this);
                glfwDestroyWindow (window this); glfwTerminate],
          EXIT_SUCCESS).
Proof.
  intros Hok Hopen Hclose Hfuel. cbv zeta.
  rewrite main_cases. cbv zeta. rewrite Hok.
  rewrite (mainLoop_calls_from host _ polled fuel 0%nat); auto.
  intros j Hj. apply Hopen. lia.
Qed.

Lemma main_success_trace_witness :
  main false Hosts.good 7
  = Some (std_cout ("Validation layers enabled: 0" ++ Cxx.endl)%string
            :: calls (startUp false Hosts.good newApplication)
            ++ loopCalls 4096 2
            ++ [vkDestroyDevice 12288; vkDestroyInstance 8192;
                glfwDestroyWindow 4096; glfwTerminate],
          EXIT_SUCCESS).
Proof.
  apply (main_success_trace false Hosts.good 2 7).
  - reflexivity.
  - intros j Hj. assert (j = 0 \/ j = 1)%nat as [-> | ->] by lia; reflexivity.
  - reflexivity.
  - lia.
Defined.

(** X17. Entered with no device chosen, as the program enters it, a
    [pickPhysicalDevice] that throws leaves the application object as it
    found it: [physicalDevice] is still [VK_NULL_HANDLE] and no other member
    is written. *)
Theorem pickPhysicalDevice_failure_keeps_object
    (host : Host) (this : HelloTriangleApplication) (e : exception) :
  physicalDevice this = VK_NULL_HANDLE ->
  outcome (pickPhysicalDevice host this) = inl e ->
  object (pickPhysicalDevice host this) = this.
Proof.
  intros Hnull.
  destruct (host_physicalDevices host (instance this)) as [|c rest] eqn:Hdev.
  - rewrite (pickPhysicalDevice_empty host this Hdev). reflexivity.
  - assert (Hne : host_physicalDevices host (instance this) <> [])
      by (rewrite Hdev; discriminate).
    destruct (first_capable_device host (host_physicalDevices host (instance this)))
      as [Hnone | (before & d & after & Hsplit & Hb & Hd)].
    + rewrite (pickPhysicalDevice_none host this Hne Hnone). reflexivity.
    + rewrite (pickPhysicalDevice_split host this before d after Hsplit Hb Hd).
      unfold outcome, object. cbn [fst snd].
      destruct (Z.eqb_spec d VK_NULL_HANDLE) as [->|_]; [|discriminate].
      intros _. rewrite <- Hnull. destruct this; reflexivity.
Qed.

(** Two devices, neither with a graphics family. *)
Lemma pickPhysicalDevice_failure_keeps_object_witness :
  object (pickPhysicalDevice (Hosts.headless [5; 6]) (set_instance 8192 newApplication))
  = set_instance 8192 newApplication.
Proof.
  apply (pickPhysicalDevice_failure_keeps_object (Hosts.headless [5; 6])
           (set_instance 8192 newApplication) NoSuitableDevice).
  - reflexivity.
  - reflexivity.
Defined.

(* ================================================================= *)
(** ** Teardown *)

(** C2, as the program has it. In a run whose close request arrives:
    when start-up completes, the run is the calls of start-up, which create
    the window, the instance and the device and release nothing, then the
    main loop, and only then the calls of [cleanup], which release the
    logical device, the instance and the window, in this order, the reverse
    of the creation order, before [glfwTerminate]; the exit status is 0.
    When a start-up step throws, logical device creation included, [run] is
    left before the main loop and [cleanup]: no release call is made and the
    exit status is 1. *)
Theorem teardown_only_after_main_loop
    (enableValidationLayers : bool) (host : Host) (closing fuel : nat) :
  host_windowShouldClose host closing = true ->
  (closing < fuel)%nat ->
  exists t status,
    main enableValidationLayers host fuel = Some (t, status)
    /\ (status = EXIT_SUCCESS <->
        outcome ((initWindow host ;; initVulkan enableValidationLayers host)
                   newApplication) = inr tt)
    /\ ((status = EXIT_SUCCESS
         /\ releasedInReverseOrder host t
         /\ exists t0 polled d i w,
              t = t0 ++ loopCalls w polled
                     ++ [vkDestroyDevice d; vkDestroyInstance i;
                         glfwDestroyWindow w; glfwTerminate]
              /\ released t0 = []
              /\ filter isLoopCall t0 = []
              /\ owed host t0
                 = [glfwDestroyWindow w; vkDestroyInstance i; vkDestroyDevice d]
              /\ released t
                 = [vkDestroyDevice d; vkDestroyInstance i; glfwDestroyWindow w])
        \/ (status = EXIT_FAILURE
            /\ released t = []
            /\ filter isLoopCall t = [])).
Proof.
  intros Hclose Hfuel. rewrite main_cases. cbv zeta.
  pose proof (startup_ledger enableValidationLayers host newApplication) as Hs.
  pose proof (startUp_no_loop_call enableValidationLayers host) as Hq.
  cbv zeta in Hs.
  change ((initWindow host ;; initVulkan enableValidationLayers host) newApplication)
    with (startUp enableValidationLayers host newApplication) in *.
  destruct Hs as (Hr & Ho).
  set (su := startUp enableValidationLayers host newApplication) in *.
  destruct (outcome su) as [e|[]] eqn:Hout.
  - eexists (_ :: _), EXIT_FAILURE. split; [reflexivity|].
    split; [split; discriminate|].
    right. split; [reflexivity|]. split.
    + cbn [released filter isRelease]. fold (released (calls su ++ [std_cerr (what e ++ Cxx.endl)%string])).
      rewrite released_app, Hr. reflexivity.
    + cbn [filter isLoopCall]. rewrite filter_app, Hq. reflexivity.
  - specialize (Ho tt eq_refl).
    destruct (mainLoop_ends host (object su) closing Hclose fuel 0%nat)
      as (t2 & Hloop & Hr2 & Ho2); [lia|].
    rewrite Hloop.
    destruct (mainLoop_some host (object su) fuel 0%nat t2 Hloop) as (polled & ->).
    eexists (_ :: _), EXIT_SUCCESS. split; [reflexivity|].
    split; [split; reflexivity|].
    left. split; [reflexivity|].
    assert (Hrel : released
                     (std_cout ("Validation layers enabled: "
                                ++ (if enableValidationLayers then "1" else "0")
                                ++ Cxx.endl)%string
                        :: calls su ++ loopCalls (window (object su)) polled
                        ++ [vkDestroyDevice (device (object su));
                            vkDestroyInstance (instance (object su));
                            glfwDestroyWindow (window (object su)); glfwTerminate])
                   = [vkDestroyDevice (device (object su));
                      vkDestroyInstance (instance (object su));
                      glfwDestroyWindow (window (object su))]).
    { change (released (std_cout ?s :: ?t)) with (released t).
      rewrite !released_app, Hr, Hr2. reflexivity. }
    split.
    + unfold releasedInReverseOrder. rewrite Hrel.
      change (owed host (std_cout ?s :: ?t)) with (owed host t).
      rewrite !owed_app, Ho, Ho2. reflexivity.
    + exists (std_cout ("Validation layers enabled: "
                        ++ (if enableValidationLayers then "1" else "0")
                        ++ Cxx.endl)%string :: calls su),
             polled, (device (object su)), (instance (object su)),
             (window (object su)).
      split; [reflexivity|]. split; [exact Hr|]. split; [exact Hq|].
      split; [exact Ho | exact Hrel].
Qed.

(** The workstation, closed after two polls: status 0 and the three
    releases in reverse creation order, after the loop. *)
Lemma teardown_only_after_main_loop_witness :
  exists t status,
    main true Hosts.good 3 = Some (t, status)
    /\ (status = EXIT_SUCCESS <->
        outcome ((initWindow Hosts.good ;; initVulkan true Hosts.good)
                   newApplication) = inr tt)
    /\ ((status = EXIT_SUCCESS
         /\ releasedInReverseOrder Hosts.good t
         /\ exists t0 polled d i w,
              t = t0 ++ loopCalls w polled
                     ++ [vkDestroyDevice d; vkDestroyInstance i;
                         glfwDestroyWindow w; glfwTerminate]
              /\ released t0 = []
              /\ filter isLoopCall t0 = []
              /\ owed Hosts.good t0
                 = [glfwDestroyWindow w; vkDestroyInstance i; vkDestroyDevice d]
              /\ released t
                 = [vkDestroyDevice d; vkDestroyInstance i; glfwDestroyWindow w])
        \/ (status = EXIT_FAILURE
            /\ released t = []
            /\ filter isLoopCall t = [])).
Proof.
  apply (teardown_only_after_main_loop true Hosts.good 2 3).
  - reflexivity.
  - lia.
Defined.

(** C2 as stated fails. On a host whose driver refuses the logical device,
    the window and the instance have been created, the program ends with
    status 1, and neither is released. *)
Lemma teardown_skipped_when_device_creation_fails :
  exists t,
    main true Hosts.refusesDevice 3 = Some (t, EXIT_FAILURE)
    /\ owed Hosts.refusesDevice t = [glfwDestroyWindow 4096; vkDestroyInstance 8192]
    /\ released t = []
    /\ ~ releasedInReverseOrder Hosts.refusesDevice t.
Proof.
  eexists. split; [reflexivity|].
  split; [reflexivity|]. split; [reflexivity|].
  unfold releasedInReverseOrder. vm_compute. discriminate.
Qed.

